(** * files2knowledge: the batch conversion pipeline

    A shallow embedding of [src/files2knowledge.py]: the Ollama client's
    [generate], [process_image], [process_pdf] and [process_input_path],
    written in a state-and-exception monad over an explicit file system,
    a clock and the inference endpoint.

    Modelling decisions, all visible in the definitions below:
    - a [pathlib.Path] is the list of its components;
    - the file system is a finite map from paths to nodes; calls that the
      source does not guard ([mkdir], [open(..., "w")], [Image.save]) succeed;
    - [tempfile.TemporaryDirectory] yields a fresh private directory: it is a
      store of its own, emptied on entry and on every exit of the [with] block;
    - the wall clock and the HTTP endpoint are oracles indexed by the number
      of readings / requests made so far;
    - an exception raised in the middle of a function leaves the writes made
      before it in place;
    - paths are POSIX paths: [glob] compares names case-sensitively;
    - logging, the progress bar and the availability check of the client's
      constructor do not influence the results and are left out. *)

From Stdlib Require Import Ascii String.
From stdpp Require Import gmap strings list fin_maps pretty.

Open Scope string_scope.
Open Scope list_scope.
Open Scope nat_scope.

(** ** Strings as Python uses them here *)

Module Str.

Fixpoint take (n : nat) (s : string) : string :=
  match n, s with
  | S n', String a s' => String a (take n' s')
  | _, _ => ""
  end.

Fixpoint drop (n : nat) (s : string) : string :=
  match n, s with
  | S n', String _ s' => drop n' s'
  | _, _ => s
  end.

(** [s.rfind(c)], with [None] for Python's [-1]. *)
Fixpoint rfind (c : ascii) (s : string) : option nat :=
  match s with
  | "" => None
  | String a s' =>
      match rfind c s' with
      | Some i => Some (S i)
      | None => if Ascii.eqb a c then Some 0 else None
      end
  end.

(** [s.lower()] on ASCII text. *)
Definition lower_char (a : ascii) : ascii :=
  let n := nat_of_ascii a in
  if ((65 <=? n) && (n <=? 90))%nat then ascii_of_nat (n + 32)%nat else a.

Fixpoint lower (s : string) : string :=
  match s with
  | "" => ""
  | String a s' => String (lower_char a) (lower s')
  end.

(** [s.endswith(suf)]. *)
Definition ends_with (suf s : string) : bool :=
  String.eqb (drop (String.length s - String.length suf)%nat s) suf
  && (String.length suf <=? String.length s)%nat.

(** [dict.get(k, default)] on a decoded JSON object. *)
Fixpoint dict_get (k : string) (d : list (string * string)) (default : string) : string :=
  match d with
  | [] => default
  | (k', v) :: d' => if String.eqb k' k then v else dict_get k d' default
  end.

End Str.

(** ** Paths *)

Abbreviation path := (list string).

(** [p.name]: the final component, empty for a path without components. *)
Definition name (p : path) : string := List.last p "".

(** [p.suffix] and [p.stem] as pathlib computes them from [name.rfind('.')]. *)
Definition suffix (p : path) : string :=
  let nm := name p in
  match Str.rfind "." nm with
  | Some i => if ((0 <? i) && (i <? String.length nm - 1))%nat then Str.drop i nm else ""
  | None => ""
  end.

Definition stem (p : path) : string :=
  let nm := name p in
  match Str.rfind "." nm with
  | Some i => if ((0 <? i) && (i <? String.length nm - 1))%nat then Str.take i nm else nm
  | None => nm
  end.

(** [p / s] for a string [s] without separator. *)
Definition joinpath (p : path) (s : string) : path := p ++ [s].

(** A file is either on the persistent disk or inside the temporary directory
    of the running [process_pdf]. *)
Inductive location :=
| OnDisk (p : path)
| InTemp (file : string).

(** [str(image_path) + suf]: same directory, the suffix glued to the name. *)
Definition add_suffix (l : location) (suf : string) : location :=
  match l with
  | OnDisk p => OnDisk (removelast p ++ [List.last p "." +:+ suf])
  | InTemp f => InTemp (f +:+ suf)
  end.

(** ** File contents *)

Record image := Image { width : nat; height : nat; pixels : string }.

(** [img.resize((w, h))]: the canvas is forced to [w] x [h]; resampling of the
    pixel data is not modelled. *)
Definition resize (w h : nat) (img : image) : image :=
  {| width := w; height := h; pixels := pixels img |}.

(** The three JSON objects the program dumps. *)
Inductive json_doc :=
| ImageRecord (filename timestamp description : string)
| PageRecord (page : nat) (filename timestamp description : string)
| CombinedRecord (filename timestamp : string) (total_pages : nat)
    (pages : gmap string string).

Inductive content :=
| Raw (bytes : string)
| Picture (img : image)
| Pdf (pages : list image)
| Json (doc : json_doc).

Inductive node :=
| Dir
| File (c : content).

(** ** The clock *)

Record datetime := DateTime {
  year : nat; month : nat; day : nat; hour : nat; minute : nat; second : nat }.

Definition digit (n : nat) : ascii := ascii_of_nat (48 + n mod 10)%nat.

Definition pad2 (n : nat) : string :=
  String (digit (n / 10)%nat) (String (digit n) "").

Definition pad4 (n : nat) : string :=
  String (digit (n / 1000)%nat) (String (digit (n / 100)%nat) (pad2 n)).

(** [d.strftime("%Y%m%d_%H%M%S")]; a [datetime] has a year of at most four
    digits and two-digit fields otherwise. *)
Definition strftime (d : datetime) : string :=
  pad4 (year d) +:+ pad2 (month d) +:+ pad2 (day d) +:+ "_" +:+
  pad2 (hour d) +:+ pad2 (minute d) +:+ pad2 (second d).

(** ** The inference endpoint *)

Record OllamaClient := Client { model_name : string; api_url : string }.

Definition api_endpoint (c : OllamaClient) : string := api_url c +:+ "/api/generate".

(** The JSON payload of [generate]; the base64 text of the resized file is
    represented by the picture it encodes. *)
Record payload := Payload {
  p_model : string; p_prompt : string; p_images : list image; p_stream : bool }.

(** What [requests.post] does: raise a [RequestException] before any response
    arrives, or return a response with a status code and a decoded JSON body. *)
Inductive http_outcome :=
| ConnectionFailed (reason : string)
| Responded (status : Z) (body : list (string * string)).

(** ** The environment and the state *)

Record env := Env {
  now : nat → datetime;
  post : nat → string → payload → http_outcome }.

Record world := World {
  disk : gmap path node;
  temp : gmap string node;
  clock_reads : nat;
  requests_sent : nat }.

(** ** Exceptions *)

Inductive request_exception :=
| TransportError (reason : string)
| HTTPError (status : Z).

Inductive exn :=
| FileNotFoundError (l : location)
| ImageOpenError (l : location)
| PdfConversionError (p : path)
| OllamaApiError (cause : request_exception).

Inductive result (A : Type) :=
| Ok (a : A)
| Raise (e : exn).
Arguments Ok {A} a.
Arguments Raise {A} e.

(** ** The monad: state that survives an exception *)

Definition M (A : Type) : Type := world → result A * world.

Definition ret {A} (a : A) : M A := λ w, (Ok a, w).

Definition bind {A B} (m : M A) (k : A → M B) : M B := λ w,
  match m w with
  | (Ok a, w') => k a w'
  | (Raise e, w') => (Raise e, w')
  end.

Definition raise {A} (e : exn) : M A := λ w, (Raise e, w).

Notation "x ←ₘ m ; k" := (bind m (λ x, k))
  (at level 100, m at next level, right associativity,
   format "x  ←ₘ  m ; '//' k").
Notation "m ;;ₘ k" := (bind m (λ _, k))
  (at level 100, right associativity).

(** [for i, x in enumerate(l, start=i0)] threading the loop variables [s]. *)
Fixpoint for_enumerate {A St} (body : nat → A → St → M St) (i0 : nat) (l : list A) (s : St) : M St :=
  match l with
  | [] => ret s
  | x :: l' => s' ←ₘ body i0 x s; for_enumerate body (S i0) l' s'
  end.

(** [for x in l] threading the loop variables [s]. *)
Definition for_each {A St} (body : A → St → M St) (l : list A) (s : St) : M St :=
  for_enumerate (λ _, body) 0 l s.

(** ** File system primitives *)

Definition lookup_loc (l : location) (w : world) : option node :=
  match l with
  | OnDisk p => disk w !! p
  | InTemp f => temp w !! f
  end.

Definition read (l : location) : M (option node) := λ w, (Ok (lookup_loc l w), w).

Definition write (l : location) (c : content) : M unit := λ w,
  (Ok tt,
   match l with
   | OnDisk p => World (<[p := File c]> (disk w)) (temp w) (clock_reads w) (requests_sent w)
   | InTemp f => World (disk w) (<[f := File c]> (temp w)) (clock_reads w) (requests_sent w)
   end).

(** The directories [mkdir(parents=True, exist_ok=True)] has to provide:
    the path and all its ancestors. *)
Definition ancestors_and_self (p : path) : list path :=
  map (λ n, take n p) (seq 1 (length p)).

Definition ensure_dir (d : gmap path node) (p : path) : gmap path node :=
  match d !! p with
  | Some _ => d
  | None => <[p := Dir]> d
  end.

Definition make_dirs (d : gmap path node) (p : path) : gmap path node :=
  foldl ensure_dir d (ancestors_and_self p).

Definition mkdir_parents_exist_ok (p : path) : M unit := λ w,
  (Ok tt,
   World (make_dirs (disk w) p) (temp w) (clock_reads w) (requests_sent w)).

Definition is_file (p : path) : M bool := λ w,
  (Ok (match disk w !! p with Some (File _) => true | _ => false end), w).

Definition is_dir (p : path) : M bool := λ w,
  (Ok (match disk w !! p with Some Dir => true | _ => false end), w).

(** [p] lies strictly below [root]. *)
Definition below (root p : path) : bool :=
  bool_decide (take (length root) p = root) && (length root <? length p)%nat.

(** [list(root.glob("**/*" + ext))]: every entry below [root], at any depth,
    whose name ends with [ext]; the comparison is the case-sensitive one of
    POSIX paths. The order is the file system's. *)
Definition glob_matches (root : path) (ext : string) (p : path) : bool :=
  below root p && Str.ends_with ext (name p).

Definition glob_list (d : gmap path node) (root : path) (ext : string) : list path :=
  filter (λ p, glob_matches root ext p = true) (fst <$> map_to_list d).

Definition glob_rec (root : path) (ext : string) : M (list path) := λ w,
  (Ok (glob_list (disk w) root ext), w).

(** [tempfile.TemporaryDirectory()] as a context manager. *)
Definition with_temporary_directory {A} (body : M A) : M A := λ w,
  let '(r, w') := body (World (disk w) ∅ (clock_reads w) (requests_sent w)) in
  (r, World (disk w') ∅ (clock_reads w') (requests_sent w')).

(** ** The program *)

Section Pipeline.

Variable E : env.

(** [datetime.datetime.now()]. *)
Definition datetime_now : M datetime := λ w,
  (Ok (now E (clock_reads w)),
   World (disk w) (temp w) (S (clock_reads w)) (requests_sent w)).

(** [requests.post(url, json=payload)]. *)
Definition requests_post (url : string) (pl : payload) : M http_outcome := λ w,
  (Ok (post E (requests_sent w) url pl),
   World (disk w) (temp w) (clock_reads w) (S (requests_sent w))).

(** The statuses on which [response.raise_for_status()] raises [HTTPError]:
    client errors and server errors. *)
Definition is_error_status (status : Z) : bool :=
  ((400 <=? status) && (status <? 600))%Z.

(** [Image.open(image_path)]. *)
Definition Image_open (l : location) (nd : node) : M image :=
  match nd with
  | File (Picture img) => ret img
  | _ => raise (ImageOpenError l)
  end.

(** [OllamaClient.generate], lines 52-89. *)
Definition generate (self : OllamaClient) (prompt : string) (image_path : location) : M string :=
  found ←ₘ read image_path;
  match found with
  | None => raise (FileNotFoundError image_path)
  | Some nd =>
      img ←ₘ Image_open image_path nd;
      let img := resize 800 600 img in
      let resized_path := add_suffix image_path "_resized.jpg" in
      (write resized_path (Picture img) ;;ₘ
       let pl := {| p_model := model_name self; p_prompt := prompt;
                    p_images := [img]; p_stream := false |} in
       response ←ₘ requests_post (api_endpoint self) pl;
       match response with
       | ConnectionFailed reason => raise (OllamaApiError (TransportError reason))
       | Responded status body =>
           if is_error_status status
           then raise (OllamaApiError (HTTPError status))
           else ret (Str.dict_get "response" body "")
       end)
  end.

(** The destination of a standalone image's record. *)
Definition image_record_path (output_dir : path) (st timestamp : string) : path :=
  joinpath output_dir (st +:+ "_description_" +:+ timestamp +:+ ".json").

(** [process_image], lines 91-136. *)
Definition process_image (image_path output_dir : path) (ollama_client : OllamaClient)
    (prompt : string) : M path :=
  description ←ₘ generate ollama_client prompt (OnDisk image_path);
  d ←ₘ datetime_now;
  let timestamp := strftime d in
  let output_file := image_record_path output_dir (stem image_path) timestamp in
  (write (OnDisk output_file)
     (Json (ImageRecord (name image_path) timestamp description)) ;;ₘ
   ret output_file).

(** [convert_from_path(pdf_path)]. *)
Definition convert_from_path (pdf_path : path) : M (list image) :=
  found ←ₘ read (OnDisk pdf_path);
  match found with
  | Some (File (Pdf pages)) => ret pages
  | _ => raise (PdfConversionError pdf_path)
  end.

(** The folder of one processed PDF and the files inside it. *)
Definition pdf_folder (output_dir : path) (st timestamp : string) : path :=
  joinpath output_dir (st +:+ "_" +:+ timestamp).

Definition page_record_path (pdf_output_dir : path) (page_num : nat) : path :=
  joinpath pdf_output_dir ("page_" +:+ pretty page_num +:+ "_description.json").

Definition combined_record_path (pdf_output_dir : path) (st : string) : path :=
  joinpath pdf_output_dir (st +:+ "_all_descriptions.json").

Definition temp_page (page_num : nat) : string :=
  "page_" +:+ pretty page_num +:+ ".png".

(** Lines 181-185: the pages are saved into the temporary directory. *)
Definition save_page (i : nat) (image : image) (image_paths : list location)
    : M (list location) :=
  let image_path := InTemp (temp_page (i + 1)) in
  (write image_path (Picture image) ;;ₘ
   ret (image_paths ++ [image_path])).

Definition save_pages (images : list image) : M (list location) :=
  for_enumerate save_page 0 images [].

(** Lines 191-212: one iteration of the page loop. *)
Definition page_body (pdf_path pdf_output_dir : path) (timestamp : string)
    (ollama_client : OllamaClient) (prompt : string)
    (i : nat) (image_path : location) (acc : list path * gmap string string)
    : M (list path * gmap string string) :=
  let '(output_files, descriptions) := acc in
  let page_num := i + 1 in
  let output_file := page_record_path pdf_output_dir page_num in
  description ←ₘ generate ollama_client prompt image_path;
  let descriptions := <[pretty page_num := description]> descriptions in
  (write (OnDisk output_file)
     (Json (PageRecord page_num (name pdf_path) timestamp description)) ;;ₘ
   ret (output_files ++ [output_file], descriptions)).

(** The body of the [with] block of [process_pdf], lines 169-230. *)
Definition process_pdf_pages (pdf_path pdf_output_dir : path) (timestamp : string)
    (ollama_client : OllamaClient) (prompt : string) : M (list path) :=
  images ←ₘ convert_from_path pdf_path;
  image_paths ←ₘ save_pages images;
  acc ←ₘ for_enumerate
           (page_body pdf_path pdf_output_dir timestamp ollama_client prompt)
           0 image_paths ([], ∅);
  let '(output_files, descriptions) := acc in
  let combined_output := combined_record_path pdf_output_dir (stem pdf_path) in
  (write (OnDisk combined_output)
     (Json (CombinedRecord (name pdf_path) timestamp (length images) descriptions)) ;;ₘ
   ret (output_files ++ [combined_output])).

(** [process_pdf], lines 138-233. *)
Definition process_pdf (pdf_path output_dir : path) (ollama_client : OllamaClient)
    (prompt : string) : M (list path) :=
  d ←ₘ datetime_now;
  let timestamp := strftime d in
  let pdf_output_dir := pdf_folder output_dir (stem pdf_path) timestamp in
  (mkdir_parents_exist_ok pdf_output_dir ;;ₘ
   with_temporary_directory
     (process_pdf_pages pdf_path pdf_output_dir timestamp ollama_client prompt)).

Definition pdf_suffixes : list string := [".pdf"].
Definition image_suffixes : list string := [".jpg"; ".jpeg"; ".png"; ".bmp"; ".gif"].

(** Lines 274-276: the image files below a directory, one pattern after
    the other. *)
Definition find_image_files (input_path : path) : M (list path) :=
  for_each
    (λ ext image_files,
       found ←ₘ glob_rec input_path ext; ret (image_files ++ found))
    image_suffixes [].

(** Lines 269-288: the directory branch of [process_input_path]. *)
Definition process_directory (input_path output_dir : path)
    (ollama_client : OllamaClient) (prompt : string) (output_files : list path)
    : M (list path) :=
  pdf_files ←ₘ glob_rec input_path ".pdf";
  image_files ←ₘ find_image_files input_path;
  output_files ←ₘ for_each
      (λ pdf_file output_files,
         fs ←ₘ process_pdf pdf_file output_dir ollama_client prompt;
         ret (output_files ++ fs))
      pdf_files output_files;
  output_files ←ₘ for_each
      (λ image_file output_files,
         f ←ₘ process_image image_file output_dir ollama_client prompt;
         ret (output_files ++ [f]))
      image_files output_files;
  ret output_files.

(** [process_input_path], lines 235-293. *)
Definition process_input_path (input_path output_dir : path)
    (ollama_client : OllamaClient) (prompt : string) : M (list path) :=
  (mkdir_parents_exist_ok output_dir ;;ₘ
   let output_files : list path := [] in
   isf ←ₘ is_file input_path;
   if isf : bool then
     if bool_decide (Str.lower (suffix input_path) ∈ pdf_suffixes) then
       fs ←ₘ process_pdf input_path output_dir ollama_client prompt;
       ret (output_files ++ fs)
     else if bool_decide (Str.lower (suffix input_path) ∈ image_suffixes) then
       f ←ₘ process_image input_path output_dir ollama_client prompt;
       ret (output_files ++ [f])
     else ret output_files
   else
     isd ←ₘ is_dir input_path;
     if isd : bool then
       process_directory input_path output_dir ollama_client prompt output_files
     else raise (FileNotFoundError (OnDisk input_path))).

End Pipeline.

(** * Vocabulary of the statements *)

Section Vocabulary.

Variable E : env.

(** The payload [generate] posts for a picture. *)
Definition generate_payload (self : OllamaClient) (prompt : string) (img : image) : payload :=
  {| p_model := model_name self; p_prompt := prompt;
     p_images := [resize 800 600 img]; p_stream := false |}.

(** The endpoint's answer to the [k]-th request when it carries [img]. *)
Definition outcome (self : OllamaClient) (prompt : string) (img : image) (k : nat) : http_outcome :=
  post E k (api_endpoint self) (generate_payload self prompt img).

(** What lines 82-89 make of an answer. *)
Definition reply_result (o : http_outcome) : result string :=
  match o with
  | ConnectionFailed reason => Raise (OllamaApiError (TransportError reason))
  | Responded status body =>
      if is_error_status status then Raise (OllamaApiError (HTTPError status))
      else Ok (Str.dict_get "response" body "")
  end.

(** The results of the inference calls for the pages of one document, when
    [r0] requests were sent before the first of them. *)
Definition page_replies (self : OllamaClient) (prompt : string) (r0 : nat)
    (pages : list image) : list (result string) :=
  imap (λ j img, reply_result (outcome self prompt img (r0 + j))) pages.

(** The world [generate] leaves behind once it has sent its request. *)
Definition after_generate (l : location) (img : image) (w : world) : world :=
  let w1 := snd (write (add_suffix l "_resized.jpg") (Picture (resize 800 600 img)) w) in
  World (disk w1) (temp w1) (clock_reads w1) (S (requests_sent w1)).

(** The timestamp of the [k]-th reading of the clock. *)
Definition stamp (k : nat) : string := strftime (now E k).

(** The scratch copies [generate] leaves next to an image. *)
Definition resized_name (p : path) : Prop :=
  ∃ q s, p = q ++ [s +:+ "_resized.jpg"].

(** Record paths built from a timestamp read between the [lo]-th and the
    [hi]-th reading of the clock. *)
Definition image_record_of (out : path) (lo hi : nat) (p : path) : Prop :=
  ∃ st k, lo ≤ k < hi ∧ p = image_record_path out st (stamp k).

Definition pdf_record_of (out : path) (lo hi : nat) (p : path) : Prop :=
  ∃ st k f, lo ≤ k < hi ∧ p = pdf_folder out st (stamp k) ++ [f +:+ ".json"].

Definition artifact_of (out : path) (lo hi : nat) (p : path) : Prop :=
  image_record_of out lo hi p ∨ pdf_record_of out lo hi p.

(** [w'] is reached from [w] by creating entries and by overwriting
    entries whose path satisfies [P] only. *)
Definition changes_only (P : path → Prop) (w w' : world) : Prop :=
  (∀ p, is_Some (disk w !! p) → is_Some (disk w' !! p)) ∧
  (∀ p, disk w' !! p = disk w !! p ∨ disk w !! p = None ∨ P p).

(** What a run with output directory [out] may do to the world. *)
Definition evolves (out : path) (w w' : world) : Prop :=
  clock_reads w ≤ clock_reads w' ∧
  changes_only
    (λ p, resized_name p ∨ artifact_of out (clock_reads w) (clock_reads w') p) w w'.

(** The artifacts of one document, in the order [process_pdf] returns them. *)
Definition document_block (out : path) (block : list path) : Prop :=
  ∃ st ts n,
    block = (page_record_path (pdf_folder out st ts) <$> seq 1 n) ++
            [combined_record_path (pdf_folder out st ts) st].

End Vocabulary.

(** * Concrete inputs *)

Module Sample.

Definition slide : image := Image 1024 768 "pixels".

Definition client : OllamaClient :=
  Client "granite3.2-vision:latest" "http://localhost:11434".

Definition prompt : string := "Describe the slide.".

(** An endpoint that answers the [k]-th request with the text [text k]. *)
Definition answers (k : nat) (url : string) (pl : payload) : http_outcome :=
  Responded 200 [("response", "text " +:+ pretty k)].

(** A clock whose readings all fall into the same second. *)
Definition same_second : env :=
  Env (λ _, DateTime 2024 6 15 12 30 45) answers.



(** An endpoint whose second answer is a server error. *)
Definition second_fails : env :=
  Env (λ _, DateTime 2024 6 15 12 30 45)
      (λ k url pl, if k =? 1 then Responded 500 [] else answers k url pl).

Definition on_disk (d : gmap path node) : world := World d ∅ 0 0.

(** [in/x.png] *)
Definition one_image : world :=
  on_disk (<[ ["in"; "x.png"] := File (Picture slide) ]> (<[ ["in"] := Dir ]> ∅)).


(** [in/deck.pdf] with three pages *)
Definition one_pdf : world :=
  on_disk (<[ ["in"; "deck.pdf"] := File (Pdf [slide; slide; slide]) ]>
          (<[ ["in"] := Dir ]> ∅)).

(** [in/blank.pdf] without pages *)
Definition empty_pdf : world :=
  on_disk (<[ ["in"; "blank.pdf"] := File (Pdf []) ]> (<[ ["in"] := Dir ]> ∅)).

(** [in/SCAN.PDF] with one page and [in/PHOTO.JPG] *)
Definition upper_case : world :=
  on_disk (<[ ["in"; "SCAN.PDF"] := File (Pdf [slide]) ]>
          (<[ ["in"; "PHOTO.JPG"] := File (Picture slide) ]>
          (<[ ["in"] := Dir ]> ∅))).

(** Nothing on disk. *)
Definition nothing : world := on_disk ∅.

End Sample.

(** * The constructor, the entry point and its summary *)

Module Text.

(** [s.startswith(a)]. *)
Fixpoint is_prefix (a s : string) : bool :=
  match a, s with
  | "", _ => true
  | String x a', String y s' => Ascii.eqb x y && is_prefix a' s'
  | String _ _, "" => false
  end.

(** [sub in s]. *)
Fixpoint contains (sub s : string) : bool :=
  is_prefix sub s ||
  match s with
  | "" => false
  | String _ s' => contains sub s'
  end.

(** [sep.join(l)]. *)
Fixpoint join (sep : string) (l : list string) : string :=
  match l with
  | [] => ""
  | [x] => x
  | x :: l' => x +:+ sep +:+ join sep l'
  end.

End Text.

(** [str(p)] for a POSIX path. *)
Definition path_str (p : path) : string :=
  match p with
  | [] => "."
  | "/" :: rest => "/" +:+ Text.join "/" rest
  | _ => Text.join "/" p
  end.

(** Lines 358-359 of [main]: the two lists behind the summary. *)
Definition pdf_outputs (output_files : list path) : list path :=
  filter (λ f, Text.contains "_all_descriptions.json" (path_str f) = true) output_files.

Definition image_outputs (output_files : list path) : list path :=
  filter (λ f, Text.contains "_description_" (path_str f) = true ∧
               f ∉ pdf_outputs output_files) output_files.

(** What [requests.get(f"{api_url}/api/tags")] does: raise a
    [RequestException], or return a status code and a decoded body, of which
    the [models] list (if the key is present) and the [name] of each of its
    entries (if that key is present) are kept. *)
Inductive tags_outcome :=
| TagsFailed (reason : string)
| TagsResponded (status : Z) (models : option (list (option string))).

Inductive init_exn :=
| ConnectionError (msg : string)
| TypeError.

Inductive log_event :=
| LogWarning (msg : string)
| LogError (msg : string).

(** [', '.join(model_names)]: a [TypeError] when an entry is [None]. *)
Definition join_names (model_names : list (option string)) : option string :=
  Text.join ", " <$> mapM id model_names.

(** [OllamaClient._check_model_availability], lines 34-50: the messages it
    logs and the exception it raises, if any. *)
Definition check_model_availability (registry : string → tags_outcome)
    (self : OllamaClient) : list log_event * option init_exn :=
  match registry (api_url self +:+ "/api/tags") with
  | TagsFailed reason =>
      ([LogError ("Error connecting to Ollama: " +:+ reason)],
       Some (ConnectionError ("Error connecting to Ollama: " +:+ reason)))
  | TagsResponded status models =>
      if bool_decide (status ≠ 200%Z) then
        ([LogError ("Failed to connect to Ollama API: " +:+ pretty status)],
         Some (ConnectionError ("Failed to connect to Ollama API: " +:+ pretty status)))
      else
        let model_names := default [] models in
        if bool_decide (Some (model_name self) ∉ model_names) then
          match join_names model_names with
          | None => ([], Some TypeError)
          | Some joined =>
              ([LogWarning ("Model '" +:+ model_name self +:+
                            "' not found in Ollama. Available models: " +:+ joined);
                LogWarning ("You may need to run: ollama pull " +:+ model_name self)],
               None)
          end
        else ([], None)
  end.

Inductive init_result :=
| Constructed (client : OllamaClient)
| InitRaised (e : init_exn).

(** [OllamaClient.__init__], lines 26-32. *)
Definition OllamaClient_init (registry : string → tags_outcome)
    (model_name api_url : string) : list log_event * init_result :=
  let self := Client model_name api_url in
  match check_model_availability registry self with
  | (logs, None) => (logs, Constructed self)
  | (logs, Some e) => (logs, InitRaised e)
  end.

(** The parsed command line. *)
Record Args := {
  arg_input_path : path;
  arg_output_dir : path;
  arg_model : string;
  arg_api_url : string;
  arg_prompt : string }.

(** How [main] ends: it returns after logging the two counts, it calls
    [sys.exit], or the constructor's exception, raised outside the [try],
    leaves it. *)
Inductive main_outcome :=
| Returned (image_descriptions pdf_descriptions : nat)
| SysExit (status : Z)
| Propagated (e : init_exn).

(** [main], lines 343-373. *)
Definition main (registry : string → tags_outcome) (E : env) (args : Args)
    (w : world) : main_outcome * world :=
  match OllamaClient_init registry (arg_model args) (arg_api_url args) with
  | (_, InitRaised e) => (Propagated e, w)
  | (_, Constructed ollama_client) =>
      match process_input_path E (arg_input_path args) (arg_output_dir args)
              ollama_client (arg_prompt args) w with
      | (Ok output_files, w') =>
          (Returned (length (image_outputs output_files))
                    (length (pdf_outputs output_files)), w')
      | (Raise _, w') => (SysExit 1, w')
      end
  end.

(** * Further concrete inputs *)

Module SampleRun.

(** A registry that lists two models. *)
Definition two_models (url : string) : tags_outcome :=
  TagsResponded 200 (Some [Some "granite3.2-vision:latest"; Some "llava:latest"]).

(** A registry that cannot be reached. *)
Definition unreachable (url : string) : tags_outcome :=
  TagsFailed "connection refused".

(** A registry with an entry that has no name. *)
Definition nameless_entry (url : string) : tags_outcome :=
  TagsResponded 200 (Some [None; Some "llava:latest"]).

(** [in/notes.txt] *)
Definition one_text_file : world :=
  Sample.on_disk (<[ ["in"; "notes.txt"] := File (Raw "plain text") ]>
                 (<[ ["in"] := Dir ]> ∅)).

(** [in/broken.pdf], which is no PDF *)
Definition broken_pdf : world :=
  Sample.on_disk (<[ ["in"; "broken.pdf"] := File (Raw "not a pdf") ]>
                 (<[ ["in"] := Dir ]> ∅)).


(** [in/deck.pdf] with two pages and [in/x.png] *)
Definition pdf_and_image : world :=
  Sample.on_disk (<[ ["in"; "deck.pdf"] := File (Pdf [Sample.slide; Sample.slide]) ]>
                 (<[ ["in"; "x.png"] := File (Picture Sample.slide) ]>
                 (<[ ["in"] := Dir ]> ∅))).

(** [in/product_description.pdf] with two pages *)
Definition description_pdf : world :=
  Sample.on_disk (<[ ["in"; "product_description.pdf"] :=
                       File (Pdf [Sample.slide; Sample.slide]) ]>
                 (<[ ["in"] := Dir ]> ∅)).


Definition args_for (input_path : path) : Args :=
  {| arg_input_path := input_path; arg_output_dir := ["out"];
     arg_model := "granite3.2-vision:latest";
     arg_api_url := "http://localhost:11434";
     arg_prompt := Sample.prompt |}.

End SampleRun.

(** * Facts about names *)

Section NameFacts.

Lemma str_app_nil_l (s : string) : "" +:+ s = s.
Proof. reflexivity. Qed.

Lemma str_app_cons (x : ascii) (a b : string) :
  String x a +:+ b = String x (a +:+ b).
Proof. reflexivity. Qed.

Lemma str_app_assoc (a b c : string) : (a +:+ b) +:+ c = a +:+ (b +:+ c).
Proof.
  induction a as [|x a IH]; [done|].
  rewrite !str_app_cons. by f_equal.
Qed.

Lemma str_app_length (a b : string) :
  String.length (a +:+ b) = String.length a + String.length b.
Proof.
  induction a as [|x a IH]; [done|].
  rewrite str_app_cons. simpl. by f_equal.
Qed.

(** Two texts that end in tails of the same length agree on heads and tails. *)
Lemma str_app_inj_tail (s1 s2 a b : string) :
  String.length a = String.length b →
  s1 +:+ a = s2 +:+ b → s1 = s2 ∧ a = b.
Proof.
  intros Hlen. revert s2.
  induction s1 as [|x s1 IH]; intros [|y s2] Heq.
  - done.
  - exfalso. apply (f_equal String.length) in Heq.
    rewrite str_app_nil_l, str_app_cons in Heq.
    simpl in Heq. rewrite str_app_length in Heq. lia.
  - exfalso. apply (f_equal String.length) in Heq.
    rewrite str_app_nil_l, str_app_cons in Heq.
    simpl in Heq. rewrite str_app_length in Heq. lia.
  - rewrite !str_app_cons in Heq.
    injection Heq as -> Heq. destruct (IH _ Heq) as [-> ->]. done.
Qed.



Lemma page_record_name_inj (i j : nat) :
  "page_" +:+ pretty i +:+ "_description.json" =
  "page_" +:+ pretty j +:+ "_description.json" → i = j.
Proof.
  intros Heq. apply String.app_inj in Heq.
  apply str_app_inj_tail in Heq; [|done].
  destruct Heq as [Heq _]. by apply (inj pretty) in Heq.
Qed.

Lemma page_record_path_inj (folder : path) (i j : nat) :
  page_record_path folder i = page_record_path folder j → i = j.
Proof.
  unfold page_record_path, joinpath. intros Heq.
  apply app_inj_tail in Heq as [_ Heq]. by apply page_record_name_inj in Heq.
Qed.

(** A page record is never the combined record of its folder. *)
Lemma page_record_not_combined (folder : path) (i : nat) (st : string) :
  page_record_path folder i ≠ combined_record_path folder st.
Proof.
  unfold page_record_path, combined_record_path, joinpath. intros Heq.
  apply app_inj_tail in Heq as [_ Heq].
  change ("page_" +:+ pretty i +:+ "_description.json")
    with ("page_" +:+ (pretty i +:+ ("_descriptio" +:+ "n.json"))) in Heq.
  change (st +:+ "_all_descriptions.json")
    with (st +:+ ("_all_description" +:+ "s.json")) in Heq.
  rewrite <- !str_app_assoc in Heq.
  apply str_app_inj_tail in Heq; [|done]. by destruct Heq.
Qed.

(** The scratch copy [page_i.png_resized.jpg] is no page image. *)
Lemma temp_page_not_resized (i j : nat) :
  temp_page i ≠ temp_page j +:+ "_resized.jpg".
Proof.
  unfold temp_page. intros Heq.
  change ("_resized.jpg") with ("_resized" +:+ ".jpg") in Heq.
  rewrite <- !str_app_assoc in Heq.
  apply str_app_inj_tail in Heq; [|done]. by destruct Heq.
Qed.

Lemma temp_page_inj (i j : nat) : temp_page i = temp_page j → i = j.
Proof.
  unfold temp_page. intros Heq. apply String.app_inj in Heq.
  apply str_app_inj_tail in Heq; [|done].
  destruct Heq as [Heq _]. by apply (inj pretty) in Heq.
Qed.

End NameFacts.

(** * The inference call *)

Section Generate.

Variable E : env.

Lemma generate_missing self prompt l w :
  lookup_loc l w = None →
  generate E self prompt l w = (Raise (FileNotFoundError l), w).
Proof. intros H. unfold generate, bind, read. by rewrite H. Qed.

Lemma generate_no_picture self prompt l w nd :
  lookup_loc l w = Some nd →
  (∀ img, nd ≠ File (Picture img)) →
  generate E self prompt l w = (Raise (ImageOpenError l), w).
Proof.
  intros H Hnd. unfold generate, bind, read. rewrite H.
  destruct nd as [|[b|img|ps|doc]]; try done. by destruct (Hnd img).
Qed.

Lemma generate_picture self prompt l w img :
  lookup_loc l w = Some (File (Picture img)) →
  generate E self prompt l w =
    (reply_result (outcome E self prompt img (requests_sent w)), after_generate l img w).
Proof.
  intros H. unfold generate, bind, read. rewrite H. simpl.
  unfold outcome, reply_result, generate_payload, after_generate.
  destruct l as [p|f]; simpl;
    (destruct (post E _ _ _) as [reason|status body]; [done|];
     by destruct (is_error_status status)).
Qed.



End Generate.


(** * Directories *)

Section Directories.

Lemma foldl_ensure_dir_lookup (l : list path) (d : gmap path node) (q : path) :
  foldl ensure_dir d l !! q =
    match d !! q with
    | Some nd => Some nd
    | None => if decide (q ∈ l) then Some Dir else None
    end.
Proof.
  revert d. induction l as [|p l IH]; intros d; cbn [foldl].
  - destruct (d !! q); [done|].
    destruct (decide (q ∈ [])) as [Hin|]; [|done]. by apply not_elem_of_nil in Hin.
  - rewrite IH. unfold ensure_dir at 1.
    destruct (d !! p) as [nd|] eqn:Hp.
    + destruct (d !! q) as [nd'|] eqn:Hq; [done|].
      assert (q ≠ p) by congruence.
      destruct (decide (q ∈ l)), (decide (q ∈ p :: l)) as [Hin|Hnin]; try done.
      * exfalso. apply Hnin. by right.
      * apply elem_of_cons in Hin as [?|?]; done.
    + destruct (decide (p = q)) as [->|Hne].
      * rewrite lookup_insert_eq, Hp.
        rewrite decide_True by left. done.
      * rewrite lookup_insert_ne by done.
        destruct (d !! q); [done|].
        destruct (decide (q ∈ l)), (decide (q ∈ p :: l)) as [Hin|Hnin]; try done.
        -- exfalso. apply Hnin. by right.
        -- apply elem_of_cons in Hin as [?|?]; done.
Qed.

(** [mkdir(parents=True, exist_ok=True)] keeps every existing entry and adds
    directories only. *)
Lemma make_dirs_lookup (d : gmap path node) (p q : path) :
  make_dirs d p !! q =
    match d !! q with
    | Some nd => Some nd
    | None => if decide (q ∈ ancestors_and_self p) then Some Dir else None
    end.
Proof. apply foldl_ensure_dir_lookup. Qed.

Lemma make_dirs_lookup_Some (d : gmap path node) (p q : path) (nd : node) :
  d !! q = Some nd → make_dirs d p !! q = Some nd.
Proof. intros H. by rewrite make_dirs_lookup, H. Qed.

Lemma make_dirs_changes (d : gmap path node) (p q : path) :
  make_dirs d p !! q = d !! q ∨ (d !! q = None ∧ make_dirs d p !! q = Some Dir).
Proof.
  rewrite make_dirs_lookup. destruct (d !! q); [by left|].
  destruct (decide _); [by right | by left].
Qed.

Lemma ancestors_length (p q : path) :
  q ∈ ancestors_and_self p → length q ≤ length p.
Proof.
  unfold ancestors_and_self. intros (n & -> & _)%list_elem_of_fmap.
  rewrite length_take. lia.
Qed.

Lemma self_in_ancestors (p : path) (s : string) :
  p ++ [s] ∈ ancestors_and_self (p ++ [s]).
Proof.
  unfold ancestors_and_self. apply list_elem_of_fmap.
  exists (length (p ++ [s])). split; [by rewrite firstn_all|].
  apply elem_of_seq. rewrite length_app. simpl. lia.
Qed.

End Directories.

(** * The pages of one document *)

Section Pages.

Variable E : env.

Lemma world_eta (w : world) :
  World (disk w) (temp w) (clock_reads w) (requests_sent w) = w.
Proof. by destruct w. Qed.

(** Saving the rasterized pages fills the temporary directory with
    [page_1.png], [page_2.png], ... and touches nothing else. *)
Lemma save_pages_from (images : list image) : ∀ (i0 : nat) (acc : list location) (w : world),
  ∃ t',
    for_enumerate save_page i0 images acc w =
      (Ok (acc ++ ((λ j, InTemp (temp_page (j + 1))) <$> seq i0 (length images))),
       World (disk w) t' (clock_reads w) (requests_sent w)) ∧
    (∀ j img, images !! j = Some img →
       t' !! temp_page (i0 + j + 1) = Some (File (Picture img))) ∧
    (∀ f, (∀ j, j < length images → f ≠ temp_page (i0 + j + 1)) →
       t' !! f = temp w !! f).
Proof.
  induction images as [|x rest IH]; intros i0 acc w.
  - exists (temp w). simpl. unfold ret. rewrite world_eta, app_nil_r.
    split; [done|]. split; [by intros j img Hj | done].
  - destruct (IH (S i0) (acc ++ [InTemp (temp_page (i0 + 1))])
                (World (disk w) (<[temp_page (i0 + 1) := File (Picture x)]> (temp w))
                       (clock_reads w) (requests_sent w)))
      as (t' & Hrun & Hpages & Hframe).
    exists t'. split; [|split].
    + cbn [for_enumerate]. unfold bind at 1.
      unfold save_page at 1, bind, write, ret. cbn [fst snd].
      rewrite Hrun. cbn [disk clock_reads requests_sent length seq fmap list_fmap].
      by rewrite <- app_assoc.
    + intros [|j] img Hj.
      * injection Hj as ->. rewrite Hframe.
        -- cbn [temp]. replace (i0 + 0 + 1) with (i0 + 1) by lia.
           apply lookup_insert_eq.
        -- intros j _ Heq%temp_page_inj. lia.
      * replace (i0 + S j + 1) with (S i0 + j + 1) by lia. by apply Hpages.
    + intros f Hf. rewrite Hframe.
      * cbn [temp]. apply lookup_insert_ne. intros <-.
        apply (Hf 0); [simpl; lia|]. f_equal. lia.
      * intros j Hj. replace (S i0 + j + 1) with (i0 + S j + 1) by lia.
        apply Hf. simpl. lia.
Qed.

Variables (pdf_path folder : path) (ts : string).
Variables (self : OllamaClient) (prompt : string).

(** One iteration of the page loop whose inference call succeeds. *)
Lemma page_body_ok i img d files descs w :
  temp w !! temp_page (i + 1) = Some (File (Picture img)) →
  reply_result (outcome E self prompt img (requests_sent w)) = Ok d →
  page_body E pdf_path folder ts self prompt i (InTemp (temp_page (i + 1))) (files, descs) w =
    (Ok (files ++ [page_record_path folder (i + 1)], <[pretty (i + 1) := d]> descs),
     World (<[page_record_path folder (i + 1) :=
                File (Json (PageRecord (i + 1) (name pdf_path) ts d))]> (disk w))
           (<[temp_page (i + 1) +:+ "_resized.jpg" :=
                File (Picture (resize 800 600 img))]> (temp w))
           (clock_reads w) (S (requests_sent w))).
Proof.
  intros Ht Hr. unfold page_body, bind.
  rewrite (generate_picture E self prompt (InTemp _) w img Ht), Hr.
  reflexivity.
Qed.

(** One iteration whose inference call fails: nothing reaches the disk. *)
Lemma page_body_raise i img e files descs w :
  temp w !! temp_page (i + 1) = Some (File (Picture img)) →
  reply_result (outcome E self prompt img (requests_sent w)) = Raise e →
  page_body E pdf_path folder ts self prompt i (InTemp (temp_page (i + 1))) (files, descs) w =
    (Raise e,
     World (disk w)
           (<[temp_page (i + 1) +:+ "_resized.jpg" :=
                File (Picture (resize 800 600 img))]> (temp w))
           (clock_reads w) (S (requests_sent w))).
Proof.
  intros Ht Hr. unfold page_body, bind.
  rewrite (generate_picture E self prompt (InTemp _) w img Ht), Hr.
  reflexivity.
Qed.

Lemma page_replies_cons (r0 : nat) (img : image) (rest : list image) :
  page_replies E self prompt r0 (img :: rest) =
    reply_result (outcome E self prompt img r0)
      :: page_replies E self prompt (S r0) rest.
Proof.
  unfold page_replies. cbn [imap]. rewrite Nat.add_0_r. f_equal.
  apply imap_ext. intros j x _. simpl. do 2 f_equal. lia.
Qed.

(** The loop over pages whose inference calls all succeed. *)
Lemma page_loop_ok : ∀ (imgs : list image) (ds : list string) (i0 : nat)
    (files : list path) (descs : gmap string string) (w : world),
  (∀ j img, imgs !! j = Some img →
     temp w !! temp_page (i0 + j + 1) = Some (File (Picture img))) →
  page_replies E self prompt (requests_sent w) imgs = Ok <$> ds →
  ∃ w' descs',
    for_enumerate (page_body E pdf_path folder ts self prompt) i0
      ((λ j, InTemp (temp_page (j + 1))) <$> seq i0 (length imgs)) (files, descs) w =
      (Ok (files ++ (page_record_path folder <$> seq (i0 + 1) (length imgs)), descs'), w') ∧
    clock_reads w' = clock_reads w ∧
    requests_sent w' = requests_sent w + length imgs ∧
    (∀ j d, ds !! j = Some d →
       disk w' !! page_record_path folder (i0 + j + 1) =
         Some (File (Json (PageRecord (i0 + j + 1) (name pdf_path) ts d)))) ∧
    (∀ p, (∀ j, j < length imgs → p ≠ page_record_path folder (i0 + j + 1)) →
       disk w' !! p = disk w !! p) ∧
    (∀ j d, ds !! j = Some d → descs' !! pretty (i0 + j + 1) = Some d) ∧
    (∀ key, (∀ j, j < length imgs → key ≠ pretty (i0 + j + 1)) →
       descs' !! key = descs !! key).
Proof.
  induction imgs as [|img rest IH]; intros ds i0 files descs w Htemp Hrep.
  - destruct ds; [|done]. exists w, descs. simpl. unfold ret.
    rewrite app_nil_r. repeat split; try done; lia.
  - rewrite page_replies_cons in Hrep.
    destruct ds as [|d ds]; [done|]. injection Hrep as Hd Hrep.
    assert (Ht0 : temp w !! temp_page (i0 + 1) = Some (File (Picture img))).
    { replace (i0 + 1) with (i0 + 0 + 1) by lia. by apply Htemp. }
    pose proof (page_body_ok i0 img d files descs w Ht0 Hd) as Hstep.
    set (w1 := World _ _ _ _) in Hstep.
    destruct (IH ds (S i0) (files ++ [page_record_path folder (i0 + 1)])
                (<[pretty (i0 + 1) := d]> descs) w1)
      as (w' & descs' & Hrun & Hclock & Hreq & Hpages & Hframe & Hds & Hdframe).
    { intros j img' Hj. unfold w1. cbn [temp].
      rewrite lookup_insert_ne by (intros Heq; symmetry in Heq;
                                   by apply temp_page_not_resized in Heq).
      replace (S i0 + j + 1) with (i0 + S j + 1) by lia. by apply Htemp. }
    { exact Hrep. }
    exists w', descs'. repeat split.
    + cbn [length seq]. rewrite fmap_cons. cbn [for_enumerate].
      unfold bind at 1. rewrite Hstep. rewrite Hrun.
      rewrite fmap_cons, <- app_assoc. reflexivity.
    + rewrite Hclock. reflexivity.
    + rewrite Hreq. unfold w1. cbn [requests_sent length]. lia.
    + intros [|j] d' Hj.
      * injection Hj as ->. rewrite Hframe.
        -- unfold w1. cbn [disk]. replace (i0 + 0 + 1) with (i0 + 1) by lia.
           apply lookup_insert_eq.
        -- intros j _ Heq%page_record_path_inj. lia.
      * replace (i0 + S j + 1) with (S i0 + j + 1) by lia. by apply Hpages.
    + intros p Hp. rewrite Hframe.
      * unfold w1. cbn [disk]. apply lookup_insert_ne. intros <-.
        apply (Hp 0); [simpl; lia|]. f_equal. lia.
      * intros j Hj. replace (S i0 + j + 1) with (i0 + S j + 1) by lia.
        apply Hp. simpl. lia.
    + intros [|j] d' Hj.
      * injection Hj as ->. rewrite Hdframe.
        -- replace (i0 + 0 + 1) with (i0 + 1) by lia. apply lookup_insert_eq.
        -- intros j _ Heq. apply (inj pretty) in Heq. lia.
      * replace (i0 + S j + 1) with (S i0 + j + 1) by lia. by apply Hds.
    + intros key Hkey. rewrite Hdframe.
      * apply lookup_insert_ne. intros <-.
        apply (Hkey 0); [simpl; lia|]. f_equal. lia.
      * intros j Hj. replace (S i0 + j + 1) with (i0 + S j + 1) by lia.
        apply Hkey. simpl. lia.
Qed.

(** The loop over pages when the call for page [length ds + 1] fails after
    the calls for the pages before it succeeded. *)
Lemma page_loop_raise : ∀ (ds : list string) (imgs : list image) (e : exn)
    (later : list (result string)) (i0 : nat)
    (files : list path) (descs : gmap string string) (w : world),
  (∀ j img, imgs !! j = Some img →
     temp w !! temp_page (i0 + j + 1) = Some (File (Picture img))) →
  page_replies E self prompt (requests_sent w) imgs = (Ok <$> ds) ++ Raise e :: later →
  ∃ w',
    for_enumerate (page_body E pdf_path folder ts self prompt) i0
      ((λ j, InTemp (temp_page (j + 1))) <$> seq i0 (length imgs)) (files, descs) w =
      (Raise e, w') ∧
    clock_reads w' = clock_reads w ∧
    requests_sent w' = requests_sent w + length ds + 1 ∧
    (∀ j d, ds !! j = Some d →
       disk w' !! page_record_path folder (i0 + j + 1) =
         Some (File (Json (PageRecord (i0 + j + 1) (name pdf_path) ts d)))) ∧
    (∀ p, (∀ j, j < length ds → p ≠ page_record_path folder (i0 + j + 1)) →
       disk w' !! p = disk w !! p).
Proof.
  induction ds as [|d ds IH]; intros imgs e later i0 files descs w Htemp Hrep;
    (destruct imgs as [|img rest]; [done|]);
    rewrite page_replies_cons in Hrep; injection Hrep as Hd Hrep;
    assert (Ht0 : temp w !! temp_page (i0 + 1) = Some (File (Picture img)))
      by (replace (i0 + 1) with (i0 + 0 + 1) by lia; by apply Htemp).
  - pose proof (page_body_raise i0 img e files descs w Ht0 Hd) as Hstep.
    match type of Hstep with _ = (_, ?w1) => exists w1 end.
    split; [|split; [|split; [|split]]].
    + cbn [length seq]. rewrite fmap_cons. cbn [for_enumerate].
      unfold bind at 1. rewrite Hstep. reflexivity.
    + reflexivity.
    + cbn [requests_sent length]. lia.
    + by intros j d Hj.
    + intros p _. reflexivity.
  - pose proof (page_body_ok i0 img d files descs w Ht0 Hd) as Hstep.
    set (w1 := World _ _ _ _) in Hstep.
    destruct (IH rest e later (S i0) (files ++ [page_record_path folder (i0 + 1)])
                (<[pretty (i0 + 1) := d]> descs) w1)
      as (w' & Hrun & Hclock & Hreq & Hpages & Hframe).
    { intros j img' Hj. unfold w1. cbn [temp].
      rewrite lookup_insert_ne by (intros Heq; symmetry in Heq;
                                   by apply temp_page_not_resized in Heq).
      replace (S i0 + j + 1) with (i0 + S j + 1) by lia. by apply Htemp. }
    { exact Hrep. }
    exists w'. repeat split.
    + cbn [length seq]. rewrite fmap_cons. cbn [for_enumerate].
      unfold bind at 1. rewrite Hstep. exact Hrun.
    + rewrite Hclock. reflexivity.
    + rewrite Hreq. unfold w1. cbn [requests_sent length]. lia.
    + intros [|j] d' Hj.
      * injection Hj as ->. rewrite Hframe.
        -- unfold w1. cbn [disk]. replace (i0 + 0 + 1) with (i0 + 1) by lia.
           apply lookup_insert_eq.
        -- intros j _ Heq%page_record_path_inj. lia.
      * replace (i0 + S j + 1) with (S i0 + j + 1) by lia. by apply Hpages.
    + intros p Hp. rewrite Hframe.
      * unfold w1. cbn [disk]. apply lookup_insert_ne. intros <-.
        apply (Hp 0); [simpl; lia|]. f_equal. lia.
      * intros j Hj. replace (S i0 + j + 1) with (i0 + S j + 1) by lia.
        apply Hp. simpl. lia.
Qed.

Lemma with_temporary_directory_run {A} (body : M A) (w w' : world) (r : result A) :
  body (World (disk w) ∅ (clock_reads w) (requests_sent w)) = (r, w') →
  with_temporary_directory body w =
    (r, World (disk w') ∅ (clock_reads w') (requests_sent w')).
Proof. intros H. unfold with_temporary_directory. by rewrite H. Qed.

End Pages.

(** * One document *)

Section Document.

Variable E : env.
Variables (pdf_path output_dir : path).
Variables (self : OllamaClient) (prompt : string).

Lemma bind_ok {A B} (m : M A) (k : A → M B) (w w' : world) (a : A) :
  m w = (Ok a, w') → bind m k w = k a w'.
Proof. intros H. unfold bind. by rewrite H. Qed.

Lemma bind_raise {A B} (m : M A) (k : A → M B) (w w' : world) (e : exn) :
  m w = (Raise e, w') → bind m k w = (Raise e, w').
Proof. intros H. unfold bind. by rewrite H. Qed.

Lemma convert_from_path_pdf (w : world) (pages : list image) :
  disk w !! pdf_path = Some (File (Pdf pages)) →
  convert_from_path pdf_path w = (Ok pages, w).
Proof. intros H. unfold convert_from_path, bind, read. cbn [lookup_loc]. by rewrite H. Qed.

(** The [with] block when every page's inference call succeeds. *)
Lemma process_pdf_pages_ok (folder : path) (ts : string) (w : world)
    (pages : list image) (ds : list string) :
  disk w !! pdf_path = Some (File (Pdf pages)) →
  page_replies E self prompt (requests_sent w) pages = Ok <$> ds →
  ∃ w' descs,
    process_pdf_pages E pdf_path folder ts self prompt w =
      (Ok ((page_record_path folder <$> seq 1 (length pages)) ++
             [combined_record_path folder (stem pdf_path)]), w') ∧
    clock_reads w' = clock_reads w ∧
    requests_sent w' = requests_sent w + length pages ∧
    (∀ j d, ds !! j = Some d →
       disk w' !! page_record_path folder (j + 1) =
         Some (File (Json (PageRecord (j + 1) (name pdf_path) ts d)))) ∧
    disk w' !! combined_record_path folder (stem pdf_path) =
      Some (File (Json (CombinedRecord (name pdf_path) ts (length pages) descs))) ∧
    (∀ j d, ds !! j = Some d → descs !! pretty (j + 1) = Some d) ∧
    (∀ key, (∀ j, j < length pages → key ≠ pretty (j + 1)) → descs !! key = None) ∧
    (∀ p, (∀ j, j < length pages → p ≠ page_record_path folder (j + 1)) →
          p ≠ combined_record_path folder (stem pdf_path) →
          disk w' !! p = disk w !! p).
Proof.
  intros Hpdf Hrep.
  destruct (save_pages_from pages 0 [] w) as (t' & Hsave & Htp & _).
  set (w2 := World (disk w) t' (clock_reads w) (requests_sent w)) in Hsave.
  destruct (page_loop_ok E pdf_path folder ts self prompt pages ds 0 [] ∅ w2)
    as (w3 & descs & Hrun & Hclock & Hreq & Hpages & Hframe & Hds & Hdframe);
    [exact Htp | exact Hrep |].
  exists (World (<[combined_record_path folder (stem pdf_path) :=
                    File (Json (CombinedRecord (name pdf_path) ts (length pages) descs))]>
                   (disk w3))
                (temp w3) (clock_reads w3) (requests_sent w3)), descs.
  split; [|split; [|split; [|split; [|split; [|split; [|split]]]]]].
  - unfold process_pdf_pages.
    rewrite (bind_ok _ _ _ _ _ (convert_from_path_pdf w pages Hpdf)).
    unfold save_pages. rewrite (bind_ok _ _ _ _ _ Hsave).
    cbn [app] in *. rewrite (bind_ok _ _ _ _ _ Hrun). reflexivity.
  - exact Hclock.
  - exact Hreq.
  - intros j d Hj. cbn [disk].
    rewrite lookup_insert_ne by (symmetry; apply page_record_not_combined).
    by apply (Hpages j d).
  - cbn [disk]. apply lookup_insert_eq.
  - intros j d Hj. by apply (Hds j d).
  - intros key Hkey. rewrite Hdframe; [apply lookup_empty | exact Hkey].
  - intros p Hp Hc. cbn [disk]. rewrite lookup_insert_ne by done.
    rewrite Hframe; [reflexivity | exact Hp].
Qed.

(** [process_pdf] unfolds into the clock reading, the folder creation and
    the [with] block run on an empty temporary directory. *)
Lemma process_pdf_unfold (w w' : world) (r : result (list path)) :
  process_pdf_pages E pdf_path
      (pdf_folder output_dir (stem pdf_path) (stamp E (clock_reads w)))
      (stamp E (clock_reads w)) self prompt
      (World (make_dirs (disk w)
                (pdf_folder output_dir (stem pdf_path) (stamp E (clock_reads w))))
             ∅ (S (clock_reads w)) (requests_sent w)) = (r, w') →
  process_pdf E pdf_path output_dir self prompt w =
    (r, World (disk w') ∅ (clock_reads w') (requests_sent w')).
Proof.
  intros Hbody. unfold process_pdf, bind, datetime_now, mkdir_parents_exist_ok.
  cbn [disk temp clock_reads requests_sent].
  apply (with_temporary_directory_run _
           (World _ (temp w) (S (clock_reads w)) (requests_sent w)) w' r).
  exact Hbody.
Qed.

(** [process_pdf] on a document whose pages are all described. *)
Lemma process_pdf_ok (w : world) (pages : list image) (ds : list string) :
  disk w !! pdf_path = Some (File (Pdf pages)) →
  page_replies E self prompt (requests_sent w) pages = Ok <$> ds →
  let ts := stamp E (clock_reads w) in
  let folder := pdf_folder output_dir (stem pdf_path) ts in
  ∃ w' descs,
    process_pdf E pdf_path output_dir self prompt w =
      (Ok ((page_record_path folder <$> seq 1 (length pages)) ++
             [combined_record_path folder (stem pdf_path)]), w') ∧
    clock_reads w' = S (clock_reads w) ∧
    requests_sent w' = requests_sent w + length pages ∧
    (∀ j d, ds !! j = Some d →
       disk w' !! page_record_path folder (j + 1) =
         Some (File (Json (PageRecord (j + 1) (name pdf_path) ts d)))) ∧
    disk w' !! combined_record_path folder (stem pdf_path) =
      Some (File (Json (CombinedRecord (name pdf_path) ts (length pages) descs))) ∧
    (∀ j d, ds !! j = Some d → descs !! pretty (j + 1) = Some d) ∧
    (∀ key, (∀ j, j < length pages → key ≠ pretty (j + 1)) → descs !! key = None) ∧
    (∀ p, (∀ j, j < length pages → p ≠ page_record_path folder (j + 1)) →
          p ≠ combined_record_path folder (stem pdf_path) →
          disk w' !! p = make_dirs (disk w) folder !! p).
Proof.
  intros Hpdf Hrep ts folder.
  destruct (process_pdf_pages_ok folder ts
              (World (make_dirs (disk w) folder) ∅ (S (clock_reads w)) (requests_sent w))
              pages ds)
    as (w' & descs & Hrun & Hclock & Hreq & Hpages & Hcomb & Hds & Hdnone & Hframe).
  { cbn [disk]. by apply make_dirs_lookup_Some. }
  { exact Hrep. }
  exists (World (disk w') ∅ (clock_reads w') (requests_sent w')), descs.
  split; [|split; [|split; [|split; [|split; [|split; [|split]]]]]]; cbn [disk clock_reads requests_sent].
  - by apply process_pdf_unfold.
  - exact Hclock.
  - exact Hreq.
  - exact Hpages.
  - exact Hcomb.
  - exact Hds.
  - exact Hdnone.
  - exact Hframe.
Qed.

(** The [with] block when the inference call for page [length ds + 1] fails. *)
Lemma process_pdf_pages_raise (folder : path) (ts : string) (w : world)
    (pages : list image) (ds : list string) (e : exn) (later : list (result string)) :
  disk w !! pdf_path = Some (File (Pdf pages)) →
  page_replies E self prompt (requests_sent w) pages = (Ok <$> ds) ++ Raise e :: later →
  ∃ w',
    process_pdf_pages E pdf_path folder ts self prompt w = (Raise e, w') ∧
    clock_reads w' = clock_reads w ∧
    (∀ j d, ds !! j = Some d →
       disk w' !! page_record_path folder (j + 1) =
         Some (File (Json (PageRecord (j + 1) (name pdf_path) ts d)))) ∧
    (∀ p, (∀ j, j < length ds → p ≠ page_record_path folder (j + 1)) →
          disk w' !! p = disk w !! p).
Proof.
  intros Hpdf Hrep.
  destruct (save_pages_from pages 0 [] w) as (t' & Hsave & Htp & _).
  set (w2 := World (disk w) t' (clock_reads w) (requests_sent w)) in Hsave.
  destruct (page_loop_raise E pdf_path folder ts self prompt ds pages e later 0 [] ∅ w2)
    as (w3 & Hrun & Hclock & Hreq & Hpages & Hframe);
    [exact Htp | exact Hrep |].
  exists w3. split; [|split; [|split]].
  - unfold process_pdf_pages.
    rewrite (bind_ok _ _ _ _ _ (convert_from_path_pdf w pages Hpdf)).
    unfold save_pages. rewrite (bind_ok _ _ _ _ _ Hsave).
    cbn [app] in *. by rewrite (bind_raise _ _ _ _ _ Hrun).
  - exact Hclock.
  - exact Hpages.
  - exact Hframe.
Qed.

(** [process_pdf] when the inference call for page [length ds + 1] fails. *)
Lemma process_pdf_raise (w : world) (pages : list image) (ds : list string)
    (e : exn) (later : list (result string)) :
  disk w !! pdf_path = Some (File (Pdf pages)) →
  page_replies E self prompt (requests_sent w) pages = (Ok <$> ds) ++ Raise e :: later →
  let ts := stamp E (clock_reads w) in
  let folder := pdf_folder output_dir (stem pdf_path) ts in
  ∃ w',
    process_pdf E pdf_path output_dir self prompt w = (Raise e, w') ∧
    clock_reads w' = S (clock_reads w) ∧
    (∀ j d, ds !! j = Some d →
       disk w' !! page_record_path folder (j + 1) =
         Some (File (Json (PageRecord (j + 1) (name pdf_path) ts d)))) ∧
    (∀ p, (∀ j, j < length ds → p ≠ page_record_path folder (j + 1)) →
          disk w' !! p = make_dirs (disk w) folder !! p).
Proof.
  intros Hpdf Hrep ts folder.
  destruct (process_pdf_pages_raise folder ts
              (World (make_dirs (disk w) folder) ∅ (S (clock_reads w)) (requests_sent w))
              pages ds e later)
    as (w' & Hrun & Hclock & Hpages & Hframe).
  { cbn [disk]. by apply make_dirs_lookup_Some. }
  { exact Hrep. }
  exists (World (disk w') ∅ (clock_reads w') (requests_sent w')).
  split; [|split; [|split]]; cbn [disk clock_reads].
  - by apply process_pdf_unfold.
  - exact Hclock.
  - exact Hpages.
  - exact Hframe.
Qed.

(** [process_pdf] on something that is no readable PDF. *)
Lemma process_pdf_no_pdf (w : world) :
  (∀ pages, disk w !! pdf_path ≠ Some (File (Pdf pages))) →
  process_pdf E pdf_path output_dir self prompt w =
    (Raise (PdfConversionError pdf_path),
     World (make_dirs (disk w)
              (pdf_folder output_dir (stem pdf_path) (stamp E (clock_reads w))))
           ∅ (S (clock_reads w)) (requests_sent w)).
Proof.
  intros Hno. apply (process_pdf_unfold w (World _ ∅ _ _)).
  unfold process_pdf_pages. unfold bind at 1.
  unfold convert_from_path, bind, read. cbn [lookup_loc disk].
  rewrite make_dirs_lookup.
  destruct (disk w !! pdf_path) as [[|[b|img|pages|doc]]|] eqn:Hl; try done.
  - by destruct (Hno pages).
  - by destruct (decide _).
Qed.

End Document.

(** * Claims about one document *)

Section DocumentClaims.

Variable E : env.

Lemma combined_not_ancestor (folder : path) (st : string) :
  combined_record_path folder st ∉ ancestors_and_self folder.
Proof.
  intros Hin%ancestors_length. unfold combined_record_path, joinpath in Hin.
  rewrite length_app in Hin. simpl in Hin. lia.
Qed.

Lemma page_record_not_ancestor (folder : path) (k : nat) :
  page_record_path folder k ∉ ancestors_and_self folder.
Proof.
  intros Hin%ancestors_length. unfold page_record_path, joinpath in Hin.
  rewrite length_app in Hin. simpl in Hin. lia.
Qed.

Lemma page_key_cases (key : string) (n : nat) :
  (∃ j, j < n ∧ key = pretty (j + 1)) ∨ (∀ j, j < n → key ≠ pretty (j + 1)).
Proof.
  induction n as [|n [(j & Hj & ->)|Hno]].
  - right. intros j Hj. lia.
  - left. exists j. split; [lia | done].
  - destruct (decide (key = pretty (n + 1))) as [->|Hne].
    + left. exists n. split; [lia | done].
    + right. intros j Hj. destruct (decide (j = n)) as [->|]; [done|].
      apply Hno. lia.
Qed.

Lemma page_path_cases (p folder : path) (n : nat) :
  (∃ j, j < n ∧ p = page_record_path folder (j + 1)) ∨
  (∀ j, j < n → p ≠ page_record_path folder (j + 1)).
Proof.
  induction n as [|n [(j & Hj & ->)|Hno]].
  - right. intros j Hj. lia.
  - left. exists j. split; [lia | done].
  - destruct (decide (p = page_record_path folder (n + 1))) as [->|Hne].
    + left. exists n. split; [lia | done].
    + right. intros j Hj. destruct (decide (j = n)) as [->|]; [done|].
      apply Hno. lia.
Qed.

Lemma page_replies_length (self : OllamaClient) (prompt : string) (r0 : nat)
    (pages : list image) :
  length (page_replies E self prompt r0 pages) = length pages.
Proof. unfold page_replies. apply length_imap. Qed.

Lemma artifacts_NoDup (folder : path) (st : string) (n : nat) :
  NoDup ((page_record_path folder <$> seq 1 n) ++ [combined_record_path folder st]).
Proof.
  apply NoDup_app. split; [|split].
  - apply NoDup_fmap_2; [|apply NoDup_seq].
    intros i j Heq. by apply page_record_path_inj in Heq.
  - intros p (k & -> & _)%list_elem_of_fmap Hin%list_elem_of_singleton.
    by apply page_record_not_combined in Hin.
  - apply NoDup_singleton.
Qed.

Lemma not_artifact (p folder : path) (st : string) (n : nat) :
  p ∉ (page_record_path folder <$> seq 1 n) ++ [combined_record_path folder st] →
  (∀ j, j < n → p ≠ page_record_path folder (j + 1)) ∧
  p ≠ combined_record_path folder st.
Proof.
  intros Hnot. split.
  - intros j Hj ->. apply Hnot, elem_of_app. left.
    apply list_elem_of_fmap. exists (j + 1). split; [done|].
    apply elem_of_seq. lia.
  - intros ->. apply Hnot, elem_of_app. right. by apply list_elem_of_singleton.
Qed.

End DocumentClaims.

(** C1. For a PDF whose rasterization yields [N] pages and whose per-page
    inference calls all succeed, [process_pdf] returns [N] pairwise distinct
    page-record paths and one combined-record path; page record [k], for
    [k] from 1 to [N], carries [page = k]; the combined record carries
    [total_pages = N]; its [pages] mapping has exactly the keys "1" .. "N",
    and [pages["k"]] is the description of page record [k]. No other file is
    written: every other path keeps its entry or becomes a new directory. *)
Theorem process_pdf_page_and_combined_records
    (E : env) (pdf_path output_dir : path) (self : OllamaClient) (prompt : string)
    (w : world) (pages : list image) (ds : list string) :
  disk w !! pdf_path = Some (File (Pdf pages)) →
  page_replies E self prompt (requests_sent w) pages = Ok <$> ds →
  let N := length pages in
  let ts := stamp E (clock_reads w) in
  let folder := pdf_folder output_dir (stem pdf_path) ts in
  let combined := combined_record_path folder (stem pdf_path) in
  ∃ w' descs,
    process_pdf E pdf_path output_dir self prompt w =
      (Ok ((page_record_path folder <$> seq 1 N) ++ [combined]), w') ∧
    NoDup ((page_record_path folder <$> seq 1 N) ++ [combined]) ∧
    (∀ k, 1 ≤ k ≤ N → ∃ d,
        ds !! (k - 1) = Some d ∧
        disk w' !! page_record_path folder k =
          Some (File (Json (PageRecord k (name pdf_path) ts d))) ∧
        descs !! pretty k = Some d) ∧
    disk w' !! combined =
      Some (File (Json (CombinedRecord (name pdf_path) ts N descs))) ∧
    (∀ key, is_Some (descs !! key) ↔ ∃ k, 1 ≤ k ≤ N ∧ key = pretty k) ∧
    (∀ p, p ∉ (page_record_path folder <$> seq 1 N) ++ [combined] →
        disk w' !! p = disk w !! p ∨ (disk w !! p = None ∧ disk w' !! p = Some Dir)).
Proof.
  intros Hpdf Hrep N ts folder combined.
  assert (Hlen : length ds = N).
  { apply (f_equal length) in Hrep.
    by rewrite page_replies_length, length_fmap in Hrep. }
  destruct (process_pdf_ok E pdf_path output_dir self prompt w pages ds Hpdf Hrep)
    as (w' & descs & Hrun & _ & _ & Hpages & Hcomb & Hds & Hdnone & Hframe).
  fold ts folder combined N in Hrun, Hpages, Hcomb, Hds, Hdnone, Hframe.
  exists w', descs. split; [exact Hrun|]. split; [apply artifacts_NoDup|].
  split; [|split; [exact Hcomb|split]].
  - intros k Hk.
    destruct (lookup_lt_is_Some_2 ds (k - 1)) as [d Hd]; [lia|].
    exists d. replace k with (k - 1 + 1) at 2 3 4 by lia.
    split; [done|]. split; [by apply Hpages | by apply Hds].
  - intros key. split.
    + intros Hsome. destruct (page_key_cases key N) as [(j & Hj & ->)|Hno].
      * exists (j + 1). split; [lia | done].
      * rewrite (Hdnone key Hno) in Hsome. by destruct Hsome.
    + intros (k & Hk & ->).
      destruct (lookup_lt_is_Some_2 ds (k - 1)) as [d Hd]; [lia|].
      exists d. replace k with (k - 1 + 1) by lia. by apply Hds.
  - intros p [Hp Hc]%not_artifact. rewrite (Hframe p Hp Hc).
    apply make_dirs_changes.
Qed.

(** C10. When rasterization yields no page, [process_pdf] succeeds: it
    returns the combined-record path alone, the combined record has
    [total_pages = 0] and an empty [pages] mapping, and no other file is
    written. *)
Theorem process_pdf_zero_pages
    (E : env) (pdf_path output_dir : path) (self : OllamaClient) (prompt : string)
    (w : world) :
  disk w !! pdf_path = Some (File (Pdf [])) →
  let ts := stamp E (clock_reads w) in
  let folder := pdf_folder output_dir (stem pdf_path) ts in
  let combined := combined_record_path folder (stem pdf_path) in
  ∃ w',
    process_pdf E pdf_path output_dir self prompt w = (Ok [combined], w') ∧
    disk w' !! combined = Some (File (Json (CombinedRecord (name pdf_path) ts 0 ∅))) ∧
    requests_sent w' = requests_sent w ∧
    (∀ p, p ≠ combined →
        disk w' !! p = disk w !! p ∨ (disk w !! p = None ∧ disk w' !! p = Some Dir)).
Proof.
  intros Hpdf ts folder combined.
  destruct (process_pdf_ok E pdf_path output_dir self prompt w [] [] Hpdf eq_refl)
    as (w' & descs & Hrun & _ & Hreq & _ & Hcomb & _ & Hdnone & Hframe).
  fold ts folder combined in Hrun, Hcomb, Hframe.
  assert (descs = ∅) as ->.
  { apply map_empty. intros key. apply Hdnone. simpl. lia. }
  exists w'. split; [exact Hrun|]. split; [exact Hcomb|]. split.
  - rewrite Hreq. simpl. lia.
  - intros p Hp. rewrite (Hframe p); [apply make_dirs_changes | | done].
    simpl. lia.
Qed.

(** * Dispatch on the input path *)

Section Dispatch.

Variable E : env.
Variables (input_path output_dir : path).
Variables (self : OllamaClient) (prompt : string).

Lemma bind_ret_id {A} (m : M A) (w : world) : bind m (λ x, ret x) w = m w.
Proof. unfold bind, ret. by destruct (m w) as [[a|e] w']. Qed.

(** Each branch of [process_input_path] runs in the world in which the
    output directory has been ensured. *)
Lemma process_input_path_pdf_file (w : world) (c : content) :
  disk w !! input_path = Some (File c) →
  Str.lower (suffix input_path) = ".pdf" →
  process_input_path E input_path output_dir self prompt w =
    process_pdf E input_path output_dir self prompt
      (World (make_dirs (disk w) output_dir) (temp w) (clock_reads w) (requests_sent w)).
Proof.
  intros Hfile Hsuf. unfold process_input_path.
  unfold bind at 1, mkdir_parents_exist_ok. unfold bind at 1, is_file.
  cbn [disk]. rewrite (make_dirs_lookup_Some _ _ _ _ Hfile).
  rewrite Hsuf. rewrite bool_decide_true by (unfold pdf_suffixes; apply list_elem_of_singleton; done).
  cbn [app]. apply bind_ret_id.
Qed.

Lemma process_input_path_image_file (w : world) (c : content) :
  disk w !! input_path = Some (File c) →
  Str.lower (suffix input_path) ∈ image_suffixes →
  process_input_path E input_path output_dir self prompt w =
    bind (process_image E input_path output_dir self prompt) (λ f, ret [f])
      (World (make_dirs (disk w) output_dir) (temp w) (clock_reads w) (requests_sent w)).
Proof.
  intros Hfile Hsuf. unfold process_input_path.
  unfold bind at 1, mkdir_parents_exist_ok. unfold bind at 1, is_file.
  cbn [disk]. rewrite (make_dirs_lookup_Some _ _ _ _ Hfile).
  rewrite bool_decide_false.
  - rewrite bool_decide_true by done. reflexivity.
  - intros Hpdf. unfold pdf_suffixes in Hpdf.
    apply list_elem_of_singleton in Hpdf. rewrite Hpdf in Hsuf.
    by apply (bool_decide_eq_false_1 (".pdf" ∈ image_suffixes)) in Hsuf.
Qed.

Lemma process_input_path_other_file (w : world) (c : content) :
  disk w !! input_path = Some (File c) →
  Str.lower (suffix input_path) ∉ pdf_suffixes →
  Str.lower (suffix input_path) ∉ image_suffixes →
  process_input_path E input_path output_dir self prompt w =
    (Ok [], World (make_dirs (disk w) output_dir) (temp w) (clock_reads w) (requests_sent w)).
Proof.
  intros Hfile Hpdf Himg. unfold process_input_path.
  unfold bind at 1, mkdir_parents_exist_ok. unfold bind at 1, is_file.
  cbn [disk]. rewrite (make_dirs_lookup_Some _ _ _ _ Hfile).
  by rewrite !bool_decide_false by done.
Qed.

Lemma process_input_path_dir (w : world) :
  make_dirs (disk w) output_dir !! input_path = Some Dir →
  process_input_path E input_path output_dir self prompt w =
    process_directory E input_path output_dir self prompt []
      (World (make_dirs (disk w) output_dir) (temp w) (clock_reads w) (requests_sent w)).
Proof.
  intros Hdir. unfold process_input_path.
  unfold bind at 1, mkdir_parents_exist_ok. unfold bind at 1, is_file.
  cbn [disk]. rewrite Hdir. unfold bind at 1, is_dir. cbn [disk].
  by rewrite Hdir.
Qed.

Lemma process_input_path_missing (w : world) :
  make_dirs (disk w) output_dir !! input_path = None →
  process_input_path E input_path output_dir self prompt w =
    (Raise (FileNotFoundError (OnDisk input_path)),
     World (make_dirs (disk w) output_dir) (temp w) (clock_reads w) (requests_sent w)).
Proof.
  intros Hnone. unfold process_input_path.
  unfold bind at 1, mkdir_parents_exist_ok. unfold bind at 1, is_file.
  cbn [disk]. rewrite Hnone. unfold bind at 1, is_dir. cbn [disk].
  by rewrite Hnone.
Qed.

(** The five [glob] calls for images read the disk and change nothing. *)
Lemma find_image_files_run (w : world) :
  find_image_files input_path w =
    (Ok (foldl (λ acc ext, acc ++ glob_list (disk w) input_path ext) [] image_suffixes), w).
Proof. reflexivity. Qed.

End Dispatch.

(** C2. When the inference call for page [k] fails after the calls for the
    pages before it succeeded, [process_pdf] raises that very exception, the
    records of pages 1 to [k - 1] are on disk, neither a record for page [k]
    nor the combined record is written, and [process_input_path] invoked on
    that PDF fails with the same exception. *)
Theorem process_pdf_page_failure
    (E : env) (pdf_path output_dir : path) (self : OllamaClient) (prompt : string)
    (w : world) (pages : list image) (ds : list string) (e : exn)
    (later : list (result string)) :
  disk w !! pdf_path = Some (File (Pdf pages)) →
  page_replies E self prompt (requests_sent w) pages = (Ok <$> ds) ++ Raise e :: later →
  let k := length ds + 1 in
  let ts := stamp E (clock_reads w) in
  let folder := pdf_folder output_dir (stem pdf_path) ts in
  let combined := combined_record_path folder (stem pdf_path) in
  ∃ w',
    process_pdf E pdf_path output_dir self prompt w = (Raise e, w') ∧
    (∀ j, 1 ≤ j < k → ∃ d,
        ds !! (j - 1) = Some d ∧
        disk w' !! page_record_path folder j =
          Some (File (Json (PageRecord j (name pdf_path) ts d)))) ∧
    disk w' !! combined = disk w !! combined ∧
    disk w' !! page_record_path folder k = disk w !! page_record_path folder k ∧
    (Str.lower (suffix pdf_path) = ".pdf" →
     fst (process_input_path E pdf_path output_dir self prompt w) = Raise e).
Proof.
  intros Hpdf Hrep k ts folder combined.
  destruct (process_pdf_raise E pdf_path output_dir self prompt w pages ds e later Hpdf Hrep)
    as (w' & Hrun & _ & Hpages & Hframe).
  fold ts folder in Hrun, Hpages, Hframe.
  exists w'. split; [exact Hrun|]. split; [|split; [|split]].
  - intros j Hj.
    destruct (lookup_lt_is_Some_2 ds (j - 1)) as [d Hd]; [lia|].
    exists d. split; [done|]. replace j with (j - 1 + 1) at 1 2 by lia.
    by apply Hpages.
  - rewrite Hframe.
    + rewrite make_dirs_lookup. destruct (disk w !! combined); [done|].
      rewrite decide_False; [done | apply combined_not_ancestor].
    + intros j _ Heq. symmetry in Heq. by apply page_record_not_combined in Heq.
  - rewrite Hframe.
    + rewrite make_dirs_lookup. destruct (disk w !! page_record_path folder k); [done|].
      rewrite decide_False; [done | apply page_record_not_ancestor].
    + intros j Hj Heq%page_record_path_inj. lia.
  - intros Hsuf.
    rewrite (process_input_path_pdf_file E _ _ _ _ _ _ Hpdf Hsuf).
    destruct (process_pdf_raise E pdf_path output_dir self prompt
                (World (make_dirs (disk w) output_dir) (temp w)
                       (clock_reads w) (requests_sent w))
                pages ds e later) as (w'' & Hrun'' & _).
    + cbn [disk]. by apply make_dirs_lookup_Some.
    + exact Hrep.
    + by rewrite Hrun''.
Qed.

(** * One image *)

Section OneImage.

Variable E : env.
Variables (image_path output_dir : path).
Variables (self : OllamaClient) (prompt : string).

(** [process_image] on a file that opens as a picture. *)
Lemma process_image_picture (w : world) (img : image) :
  disk w !! image_path = Some (File (Picture img)) →
  process_image E image_path output_dir self prompt w =
    match reply_result (outcome E self prompt img (requests_sent w)) with
    | Ok d =>
        let ts := stamp E (clock_reads w) in
        let out := image_record_path output_dir (stem image_path) ts in
        (Ok out,
         World (<[out := File (Json (ImageRecord (name image_path) ts d))]>
                  (disk (after_generate (OnDisk image_path) img w)))
               (temp w) (S (clock_reads w)) (S (requests_sent w)))
    | Raise e => (Raise e, after_generate (OnDisk image_path) img w)
    end.
Proof.
  intros Himg. unfold process_image. unfold bind at 1.
  rewrite (generate_picture E self prompt (OnDisk image_path) w img Himg).
  by destruct (reply_result _).
Qed.

Lemma process_image_no_picture (w : world) :
  (∀ img, disk w !! image_path ≠ Some (File (Picture img))) →
  ∃ e, process_image E image_path output_dir self prompt w = (Raise e, w).
Proof.
  intros Hno. unfold process_image. unfold bind at 1.
  destruct (disk w !! image_path) as [nd|] eqn:Hl.
  - rewrite (generate_no_picture E self prompt (OnDisk image_path) w nd Hl); [eauto|].
    intros img ->. by apply (Hno img).
  - rewrite (generate_missing E self prompt (OnDisk image_path) w Hl). eauto.
Qed.

End OneImage.


(** * What a run may touch *)

Section Footprint.

Variable E : env.
Variable out : path.

Lemma changes_only_refl (P : path → Prop) (w : world) : changes_only P w w.
Proof. split; [done|]. intros p. by left. Qed.

Lemma changes_only_trans (P : path → Prop) (w1 w2 w3 : world) :
  changes_only P w1 w2 → changes_only P w2 w3 → changes_only P w1 w3.
Proof.
  intros [Hs12 Hc12] [Hs23 Hc23]. split; [by auto|]. intros p.
  destruct (Hc12 p) as [H12|[H12|H12]]; [|by right; left|by right; right].
  destruct (Hc23 p) as [H23|[H23|H23]]; [|right; left|by right; right].
  - left. congruence.
  - congruence.
Qed.

Lemma changes_only_mono (P Q : path → Prop) (w w' : world) :
  (∀ p, P p → Q p) → changes_only P w w' → changes_only Q w w'.
Proof.
  intros HPQ [Hs Hc]. split; [done|]. intros p.
  destruct (Hc p) as [?|[?|?]]; auto.
Qed.

Lemma changes_only_disk (P : path → Prop) (w w' : world) :
  disk w' = disk w → changes_only P w w'.
Proof. intros Heq. split; [by rewrite Heq|]. intros p. left. by rewrite Heq. Qed.

Lemma changes_only_insert (P : path → Prop) (w w' : world) (p : path) (nd : node) :
  disk w' = <[p := nd]> (disk w) → P p → changes_only P w w'.
Proof.
  intros Heq HP. split; intros q; rewrite Heq.
  - destruct (decide (p = q)) as [->|Hne].
    + by rewrite lookup_insert_eq.
    + by rewrite lookup_insert_ne.
  - destruct (decide (p = q)) as [->|Hne].
    + by right; right.
    + left. by rewrite lookup_insert_ne.
Qed.

Lemma changes_only_make_dirs (P : path → Prop) (w w' : world) (p : path) :
  disk w' = make_dirs (disk w) p → changes_only P w w'.
Proof.
  intros Heq. split; intros q; rewrite Heq.
  - intros [nd Hnd]. by rewrite (make_dirs_lookup_Some _ _ _ _ Hnd).
  - destruct (make_dirs_changes (disk w) p q) as [?|[? _]]; auto.
Qed.

Lemma artifact_of_mono (lo hi lo' hi' : nat) (p : path) :
  lo' ≤ lo → hi ≤ hi' → artifact_of E out lo hi p → artifact_of E out lo' hi' p.
Proof.
  intros Hlo Hhi [(st & k & Hk & ->)|(st & k & f & Hk & ->)].
  - left. exists st, k. split; [lia | done].
  - right. exists st, k, f. split; [lia | done].
Qed.

Lemma evolves_refl (w : world) : evolves E out w w.
Proof. split; [done | apply changes_only_refl]. Qed.

Lemma evolves_trans (w1 w2 w3 : world) :
  evolves E out w1 w2 → evolves E out w2 w3 → evolves E out w1 w3.
Proof.
  intros [Hc12 H12] [Hc23 H23]. split; [lia|].
  eapply changes_only_trans.
  - eapply changes_only_mono; [|exact H12].
    intros p [?|Ha]; [by left|]. right. eapply artifact_of_mono; [| |exact Ha]; lia.
  - eapply changes_only_mono; [|exact H23].
    intros p [?|Ha]; [by left|]. right. eapply artifact_of_mono; [| |exact Ha]; lia.
Qed.

End Footprint.

(** * Every run, successful or not *)

Section Runs.

Variable E : env.
Variable out : path.
Variables (self : OllamaClient) (prompt : string).

Lemma results_split {A} (l : list (result A)) :
  (∃ ds, l = Ok <$> ds) ∨ (∃ ds e later, l = (Ok <$> ds) ++ Raise e :: later).
Proof.
  induction l as [|[a|e] l [(ds & ->)|(ds & e' & later & ->)]].
  - left. by exists [].
  - left. by exists (a :: ds).
  - right. by exists (a :: ds), e', later.
  - right. by exists [], e, (Ok <$> ds).
  - right. by exists [], e, ((Ok <$> ds) ++ Raise e' :: later).
Qed.


Lemma page_record_pdf_record (st : string) (k j : nat) :
  pdf_record_of E out k (S k) (page_record_path (pdf_folder out st (stamp E k)) j).
Proof.
  exists st, k, ("page_" +:+ pretty j +:+ "_description"). split; [lia|].
  unfold page_record_path, joinpath. by rewrite !str_app_assoc.
Qed.

Lemma combined_record_pdf_record (st st' : string) (k : nat) :
  pdf_record_of E out k (S k) (combined_record_path (pdf_folder out st (stamp E k)) st').
Proof.
  exists st, k, (st' +:+ "_all_descriptions"). split; [lia|].
  unfold combined_record_path, joinpath. by rewrite !str_app_assoc.
Qed.

(** From "these paths were written, every other path is as [mkdir] left
    it" to [changes_only]. *)
Lemma written_changes_only (P written : path → Prop) (w w' : world) (folder : path) :
  (∀ p, written p ∨ ¬ written p) →
  (∀ p, written p → is_Some (disk w' !! p) ∧ P p) →
  (∀ p, ¬ written p → disk w' !! p = make_dirs (disk w) folder !! p) →
  changes_only P w w'.
Proof.
  intros Hdec Hw Hframe. split; intros p.
  - intros [nd Hnd]. destruct (Hdec p) as [Hp|Hp]; [by apply Hw|].
    rewrite (Hframe p Hp), (make_dirs_lookup_Some _ _ _ _ Hnd). eauto.
  - destruct (Hdec p) as [Hp|Hp]; [right; right; by apply Hw|].
    rewrite (Hframe p Hp).
    destruct (make_dirs_changes (disk w) folder p) as [?|[? _]]; auto.
Qed.

(** Whatever [process_image] does: it reads the clock at most once, touches
    the scratch copy and its own record only, and a returned path is that
    record's. *)
Lemma process_image_run (image_path : path) (w w' : world) (r : result path) :
  process_image E image_path out self prompt w = (r, w') →
  evolves E out w w' ∧
  (∀ p, r = Ok p →
     p = image_record_path out (stem image_path) (stamp E (clock_reads w)) ∧
     clock_reads w' = S (clock_reads w) ∧
     is_Some (disk w' !! p)).
Proof.
  intros Hrun.
  assert ((∃ img, disk w !! image_path = Some (File (Picture img))) ∨
          (∀ img, disk w !! image_path ≠ Some (File (Picture img))))
    as [[img Himg]|Hno].
  { destruct (disk w !! image_path) as [[|[b|img|ps|doc]]|]; eauto. }
  - rewrite (process_image_picture E image_path out self prompt w img Himg) in Hrun.
    set (resized := removelast image_path ++ [List.last image_path "." +:+ "_resized.jpg"]).
    assert (Hres : ∀ Q : path → Prop,
              changes_only (λ p, resized_name p ∨ Q p)
                w (after_generate (OnDisk image_path) img w)).
    { intros Q. eapply (changes_only_insert _ _ _ resized); [reflexivity|].
      left. by exists (removelast image_path), (List.last image_path "."). }
    destruct (reply_result _) as [d|e]; injection Hrun as <- <-.
    + split.
      * split; [cbn [clock_reads]; lia|]. cbn [clock_reads].
        eapply changes_only_trans; [apply Hres|].
        eapply changes_only_insert; [reflexivity|].
        right. left. exists (stem image_path), (clock_reads w). split; [lia|done].
      * intros p [= <-]. split; [done|]. split; [done|].
        cbn [disk]. rewrite lookup_insert_eq. eauto.
    + split; [|done]. split; [done | apply Hres].
  - destruct (process_image_no_picture E image_path out self prompt w Hno) as [e He].
    rewrite He in Hrun. injection Hrun as <- <-.
    split; [apply evolves_refl | done].
Qed.

(** Whatever [process_pdf] does: it reads the clock once, touches the
    files of its own folder only, and a returned list is a document block
    whose files exist. *)
Lemma process_pdf_run (pdf_path : path) (w w' : world) (r : result (list path)) :
  process_pdf E pdf_path out self prompt w = (r, w') →
  clock_reads w' = S (clock_reads w) ∧
  evolves E out w w' ∧
  (∀ fs, r = Ok fs →
     (∃ n, fs =
        (page_record_path
           (pdf_folder out (stem pdf_path) (stamp E (clock_reads w))) <$> seq 1 n) ++
        [combined_record_path
           (pdf_folder out (stem pdf_path) (stamp E (clock_reads w))) (stem pdf_path)]) ∧
     ∀ p, p ∈ fs →
       is_Some (disk w' !! p) ∧
       pdf_record_of E out (clock_reads w) (S (clock_reads w)) p).
Proof.
  intros Hrun.
  set (ts := stamp E (clock_reads w)).
  set (folder := pdf_folder out (stem pdf_path) ts).
  set (combined := combined_record_path folder (stem pdf_path)).
  assert ((∃ pages, disk w !! pdf_path = Some (File (Pdf pages))) ∨
          (∀ pages, disk w !! pdf_path ≠ Some (File (Pdf pages))))
    as [[pages Hpdf]|Hno].
  { destruct (disk w !! pdf_path) as [[|[b|img|ps|doc]]|]; eauto. }
  - destruct (results_split (page_replies E self prompt (requests_sent w) pages))
      as [(ds & Hrep)|(ds & e & later & Hrep)].
    + assert (Hlen : length ds = length pages).
      { apply (f_equal length) in Hrep.
        by rewrite page_replies_length, length_fmap in Hrep. }
      destruct (process_pdf_ok E pdf_path out self prompt w pages ds Hpdf Hrep)
        as (w'' & descs & Hrun' & Hclock & _ & Hpages & Hcomb & _ & _ & Hframe).
      fold ts folder combined in Hrun', Hpages, Hcomb, Hframe.
      rewrite Hrun' in Hrun. injection Hrun as <- <-.
      assert (Hwritten : ∀ p,
                (∃ j, j < length pages ∧ p = page_record_path folder (j + 1)) ∨
                p = combined →
                is_Some (disk w'' !! p) ∧
                pdf_record_of E out (clock_reads w) (S (clock_reads w)) p).
      { intros p [(j & Hj & ->) | ->].
        - destruct (lookup_lt_is_Some_2 ds j) as [d Hd]; [lia|].
          rewrite (Hpages j d Hd). split; [eauto|]. apply page_record_pdf_record.
        - rewrite Hcomb. split; [eauto|]. apply combined_record_pdf_record. }
      split; [exact Hclock|]. split; [split; [lia|]|].
      * rewrite Hclock.
        apply (written_changes_only _
                 (λ p, (∃ j, j < length pages ∧ p = page_record_path folder (j + 1)) ∨
                       p = combined) w w'' folder).
        -- intros p. destruct (page_path_cases p folder (length pages)) as [?|Hnp];
             [by left; left|].
           destruct (decide (p = combined)) as [->|Hnc]; [by left; right|].
           right. intros [(j & Hj & ->) | ->]; [by apply (Hnp j)|done].
        -- intros p Hp. destruct (Hwritten p Hp) as [? ?]. split; [done|].
           right. by right.
        -- intros p Hp. apply Hframe.
           ++ intros j Hj ->. apply Hp. left. eauto.
           ++ intros ->. apply Hp. by right.
      * intros fs [= <-]. split; [by exists (length pages)|].
        intros p [Hin|Hin]%elem_of_app.
        -- apply list_elem_of_fmap in Hin as (k & -> & Hk%elem_of_seq).
           apply Hwritten. left. exists (k - 1). split; [lia|]. f_equal. lia.
        -- apply list_elem_of_singleton in Hin as ->.
           apply Hwritten. by right.
    + destruct (process_pdf_raise E pdf_path out self prompt w pages ds e later Hpdf Hrep)
        as (w'' & Hrun' & Hclock & Hpages & Hframe).
      fold ts folder in Hrun', Hpages, Hframe.
      rewrite Hrun' in Hrun. injection Hrun as <- <-.
      split; [exact Hclock|]. split; [split; [lia|]|done].
      rewrite Hclock.
      apply (written_changes_only _
               (λ p, ∃ j, j < length ds ∧ p = page_record_path folder (j + 1))
               w w'' folder).
      * intros p. destruct (page_path_cases p folder (length ds)) as [?|Hnp];
          [by left|].
        right. intros (j & Hj & ->). by apply (Hnp j).
      * intros p (j & Hj & ->).
        destruct (lookup_lt_is_Some_2 ds j) as [d Hd]; [lia|].
        rewrite (Hpages j d Hd). split; [eauto|].
        right. right. apply page_record_pdf_record.
      * intros p Hp. apply Hframe. intros j Hj ->. apply Hp. eauto.
  - rewrite (process_pdf_no_pdf E pdf_path out self prompt w Hno) in Hrun.
    injection Hrun as <- <-. cbn [clock_reads].
    split; [done|]. split; [|done]. split; [cbn [clock_reads]; lia|].
    by eapply changes_only_make_dirs.
Qed.

(** A loop keeps what each of its iterations keeps; [I (Raise e)] is what
    holds when an iteration raises. *)
Lemma for_enumerate_rule {A St} (body : nat → A → St → M St)
    (I : result St → world → Prop) :
  (∀ i x s w, I (Ok s) w → I (fst (body i x s w)) (snd (body i x s w))) →
  ∀ l i0 s w, I (Ok s) w →
    I (fst (for_enumerate body i0 l s w)) (snd (for_enumerate body i0 l s w)).
Proof.
  intros Hstep. induction l as [|x l IH]; intros i0 s w HI; [done|].
  cbn [for_enumerate]. unfold bind. specialize (Hstep i0 x s w HI).
  destruct (body i0 x s w) as [[s'|e] w1]; cbn [fst snd] in *; [by apply IH | done].
Qed.

(** The directory branch, started in [w0] with nothing collected yet. *)
Lemma process_directory_run (input_path : path) (w0 w' : world)
    (r : result (list path)) :
  process_directory E input_path out self prompt [] w0 = (r, w') →
  evolves E out w0 w' ∧
  (∀ fs, r = Ok fs →
     (∀ p, p ∈ fs →
        is_Some (disk w' !! p) ∧
        artifact_of E out (clock_reads w0) (clock_reads w') p) ∧
     ∃ blocks singles,
       fs = concat blocks ++ singles ∧
       Forall (document_block out) blocks ∧
       Forall (λ p, ∃ st ts, p = image_record_path out st ts) singles).
Proof.
  intros Hrun. unfold process_directory in Hrun.
  unfold bind at 1, glob_rec in Hrun. unfold bind at 1 in Hrun.
  rewrite find_image_files_run in Hrun.
  set (pdf_files := glob_list (disk w0) input_path ".pdf") in Hrun.
  set (image_files := foldl _ _ _) in Hrun.
  set (Ipdf := λ (r : result (list path)) (w : world),
         evolves E out w0 w ∧
         match r with
         | Ok acc =>
             (∀ p, p ∈ acc →
                is_Some (disk w !! p) ∧
                artifact_of E out (clock_reads w0) (clock_reads w) p) ∧
             ∃ blocks, acc = concat blocks ∧ Forall (document_block out) blocks
         | Raise _ => True
         end).
  set (Iimg := λ (r : result (list path)) (w : world),
         evolves E out w0 w ∧
         match r with
         | Ok acc =>
             (∀ p, p ∈ acc →
                is_Some (disk w !! p) ∧
                artifact_of E out (clock_reads w0) (clock_reads w) p) ∧
             ∃ blocks singles,
               acc = concat blocks ++ singles ∧
               Forall (document_block out) blocks ∧
               Forall (λ p, ∃ st ts, p = image_record_path out st ts) singles
         | Raise _ => True
         end).
  assert (Hpdfs : Ipdf
            (fst (for_each (λ pdf_file output_files,
                    bind (process_pdf E pdf_file out self prompt)
                      (λ fs, ret (output_files ++ fs))) pdf_files [] w0))
            (snd (for_each (λ pdf_file output_files,
                    bind (process_pdf E pdf_file out self prompt)
                      (λ fs, ret (output_files ++ fs))) pdf_files [] w0))).
  { apply (for_enumerate_rule _ Ipdf).
    - intros _ pdf acc w [Hev [Hacc (blocks & -> & Hblocks)]]. unfold bind, ret.
      destruct (process_pdf E pdf out self prompt w) as [r1 w1] eqn:Hpdf.
      destruct (process_pdf_run pdf w w1 r1 Hpdf) as (Hclock & Hstep & Hok).
      assert (Hev1 : evolves E out w0 w1) by (by eapply evolves_trans).
      destruct r1 as [fs|e]; cbn [fst snd]; [|done].
      destruct (Hok fs eq_refl) as [[n Hblock] Hfs].
      split; [done|]. split.
      + intros p [Hp|Hp]%elem_of_app.
        * destruct (Hacc p Hp) as [Hsome Hart]. split.
          -- by apply Hstep.
          -- eapply artifact_of_mono; [| |exact Hart]; [done|lia].
        * destruct (Hfs p Hp) as [Hsome Hart]. split; [done|].
          right. destruct Hart as (st & k & f & Hk & ->).
          exists st, k, f. split; [|done]. destruct Hev as [Hc _]. lia.
      + exists (blocks ++ [fs]). split.
        * rewrite concat_app. simpl. by rewrite app_nil_r.
        * apply Forall_app. split; [done|]. apply Forall_singleton.
          by exists (stem pdf), (stamp E (clock_reads w)), n.
    - split; [apply evolves_refl|]. split; [by intros p Hp%not_elem_of_nil|].
      exists []. split; [done | apply Forall_nil_2]. }
  unfold bind at 1 in Hrun.
  destruct (for_each _ pdf_files [] w0) as [[acc|e] w1];
    cbn [fst snd] in Hpdfs; [|injection Hrun as <- <-; by destruct Hpdfs].
  assert (Himgs : Iimg
            (fst (for_each (λ image_file output_files,
                    bind (process_image E image_file out self prompt)
                      (λ f, ret (output_files ++ [f]))) image_files acc w1))
            (snd (for_each (λ image_file output_files,
                    bind (process_image E image_file out self prompt)
                      (λ f, ret (output_files ++ [f]))) image_files acc w1))).
  { apply (for_enumerate_rule _ Iimg).
    - intros _ img acc' w [Hev [Hacc (blocks & singles & -> & Hblocks & Hsingles)]].
      unfold bind, ret.
      destruct (process_image E img out self prompt w) as [r1 w2] eqn:Himg.
      destruct (process_image_run img w w2 r1 Himg) as (Hstep & Hok).
      assert (Hev1 : evolves E out w0 w2) by (by eapply evolves_trans).
      destruct r1 as [f|e]; cbn [fst snd]; [|done].
      destruct (Hok f eq_refl) as (-> & Hclock & Hsome).
      split; [done|]. split.
      + intros p [Hp|Hp]%elem_of_app.
        * destruct (Hacc p Hp) as [Hsome' Hart]. split.
          -- by apply Hstep.
          -- eapply artifact_of_mono; [| |exact Hart]; [done|lia].
        * apply list_elem_of_singleton in Hp as ->. split; [done|].
          left. exists (stem img), (clock_reads w). split; [|done].
          destruct Hev as [Hc _]. lia.
      + exists blocks, (singles ++ [image_record_path out (stem img)
                                       (stamp E (clock_reads w))]).
        split; [by rewrite app_assoc|]. split; [done|].
        apply Forall_app. split; [done|]. apply Forall_singleton. eauto.
    - destruct Hpdfs as [Hev [Hacc (blocks & -> & Hblocks)]].
      split; [done|]. split; [done|].
      exists blocks, []. split; [by rewrite app_nil_r|]. split; [done|].
      apply Forall_nil_2. }
  unfold bind at 1 in Hrun.
  destruct (for_each _ image_files acc w1) as [[acc'|e] w2];
    cbn [fst snd] in Himgs; injection Hrun as <- <-.
  - destruct Himgs as [Hev [Hacc Hblocks]]. split; [done|].
    intros fs [= <-]. by split.
  - by destruct Himgs.
Qed.

(** Whatever [process_input_path] does. *)
Lemma process_input_path_run (input_path : path) (w w' : world)
    (r : result (list path)) :
  process_input_path E input_path out self prompt w = (r, w') →
  evolves E out w w' ∧
  (∀ fs, r = Ok fs →
     (∀ p, p ∈ fs →
        is_Some (disk w' !! p) ∧
        artifact_of E out (clock_reads w) (clock_reads w') p) ∧
     ∃ blocks singles,
       fs = concat blocks ++ singles ∧
       Forall (document_block out) blocks ∧
       Forall (λ p, ∃ st ts, p = image_record_path out st ts) singles).
Proof.
  intros Hrun.
  set (wm := World (make_dirs (disk w) out) (temp w) (clock_reads w) (requests_sent w)).
  assert (Hm : evolves E out w wm).
  { split; [done|]. by eapply changes_only_make_dirs. }
  destruct (make_dirs (disk w) out !! input_path) as [[|c]|] eqn:Hl.
  - rewrite (process_input_path_dir E _ _ _ _ _ Hl) in Hrun.
    destruct (process_directory_run _ _ _ _ Hrun) as [Hev Hok].
    split; [by eapply evolves_trans|]. exact Hok.
  - assert (Hf : disk w !! input_path = Some (File c)).
    { rewrite make_dirs_lookup in Hl.
      destruct (disk w !! input_path); [done|]. by destruct (decide _). }
    destruct (decide (Str.lower (suffix input_path) = ".pdf")) as [Hpdf|Hnpdf].
    + rewrite (process_input_path_pdf_file E _ _ _ _ _ _ Hf Hpdf) in Hrun.
      destruct (process_pdf_run _ _ _ _ Hrun) as (Hclock & Hev & Hok).
      split; [by eapply evolves_trans|].
      intros fs ->. destruct (Hok fs eq_refl) as [[n Hblock] Hfs]. split.
      * intros p Hp. destruct (Hfs p Hp) as [Hsome Hart]. split; [done|].
        right. by rewrite Hclock.
      * exists [fs], []. split; [simpl; by rewrite !app_nil_r|].
        split; [|apply Forall_nil_2]. apply Forall_singleton.
        by exists (stem input_path), (stamp E (clock_reads wm)), n.
    + destruct (decide (Str.lower (suffix input_path) ∈ image_suffixes)) as [Himg|Hnimg].
      * rewrite (process_input_path_image_file E _ _ _ _ _ _ Hf Himg) in Hrun.
        unfold bind, ret in Hrun. fold wm in Hrun.
        destruct (process_image E input_path out self prompt wm) as [r1 w1] eqn:Hone.
        destruct (process_image_run _ _ _ _ Hone) as [Hev Hok].
        destruct r1 as [f|e]; injection Hrun as <- <-;
          (split; [by eapply evolves_trans|]); [|done].
        intros fs [= <-]. destruct (Hok f eq_refl) as (-> & Hclock & Hsome). split.
        -- intros p ->%list_elem_of_singleton. split; [done|].
           left. exists (stem input_path), (clock_reads w).
           split; [rewrite Hclock; unfold wm; cbn [clock_reads]; lia | done].
        -- exists [], [image_record_path out (stem input_path) (stamp E (clock_reads wm))].
           split; [done|]. split; [apply Forall_nil_2|].
           apply Forall_singleton. eauto.
      * rewrite (process_input_path_other_file E _ _ _ _ _ _ Hf) in Hrun; [|
          by intros ?%list_elem_of_singleton | done].
        injection Hrun as <- <-. split; [done|].
        intros fs [= <-]. split; [by intros p ?%not_elem_of_nil|].
        exists [], []. split; [done|]. split; apply Forall_nil_2.
  - rewrite (process_input_path_missing E _ _ _ _ _ Hl) in Hrun.
    injection Hrun as <- <-. by split.
Qed.

End Runs.

(** * When two record paths coincide *)

Section Collisions.

Variable E : env.
Variable out : path.









End Collisions.

(** * Claims about whole runs *)




(** * The directory scan and the missing input *)

Section Scan.

Variable E : env.
Variables (input_path output_dir : path).
Variables (self : OllamaClient) (prompt : string).

(** [glob] yields the entries below the root whose name ends with the
    extension as written, each once. *)
Lemma glob_list_spec (d : gmap path node) (ext : string) (p : path) :
  p ∈ glob_list d input_path ext ↔
    is_Some (d !! p) ∧ below input_path p = true ∧ Str.ends_with ext (name p) = true.
Proof.
  unfold glob_list, glob_matches.
  rewrite list_elem_of_filter, andb_true_iff, list_elem_of_fmap. split.
  - intros [Hm ([q nd] & -> & Hin%elem_of_map_to_list)]. split; [|done].
    simpl. eauto.
  - intros [[nd Hnd] Hm]. split; [done|].
    exists (p, nd). split; [done|]. by apply elem_of_map_to_list.
Qed.

Lemma glob_list_NoDup (d : gmap path node) (ext : string) :
  NoDup (glob_list d input_path ext).
Proof. unfold glob_list. apply NoDup_filter, NoDup_fst_map_to_list. Qed.

(** A missing input that is not created along with the output directory
    is reported, and only directories have been added by then. *)
Lemma process_input_path_not_found (w : world) :
  disk w !! input_path = None →
  input_path ∉ ancestors_and_self output_dir →
  process_input_path E input_path output_dir self prompt w =
    (Raise (FileNotFoundError (OnDisk input_path)),
     World (make_dirs (disk w) output_dir) (temp w) (clock_reads w) (requests_sent w)).
Proof.
  intros Hnone Hnot. apply process_input_path_missing.
  rewrite make_dirs_lookup, Hnone. by rewrite decide_False.
Qed.

(** A missing input on the way to the output directory is created by the
    [mkdir] of line 254 and then scanned as a directory. *)
Lemma process_input_path_created (w : world) :
  disk w !! input_path = None →
  input_path ∈ ancestors_and_self output_dir →
  process_input_path E input_path output_dir self prompt w =
    process_directory E input_path output_dir self prompt []
      (World (make_dirs (disk w) output_dir) (temp w) (clock_reads w) (requests_sent w)).
Proof.
  intros Hnone Hin. apply process_input_path_dir.
  rewrite make_dirs_lookup, Hnone. by rewrite decide_True.
Qed.

End Scan.

(** * Evaluations *)

Lemma run_eta {A} (x : result A * world) (r : result A) :
  fst x = r → x = (r, snd x).
Proof. intros <-. by destruct x. Qed.

(** C7 (the code at the failing input). With nothing on disk, the input
    [data] and the output directory [data/out], [process_input_path] does not
    fail: creating the output directory creates [data], which is then
    scanned as an empty directory, and the empty list is returned. *)
Theorem missing_input_created_with_output_dir :
  disk Sample.nothing !! ["data"] = None ∧
  fst (process_input_path Sample.same_second ["data"] ["data"; "out"]
         Sample.client Sample.prompt Sample.nothing) = Ok [] ∧
  disk (snd (process_input_path Sample.same_second ["data"] ["data"; "out"]
               Sample.client Sample.prompt Sample.nothing)) !! ["data"] = Some Dir.
Proof. repeat split; vm_compute; reflexivity. Qed.

(** C4 (the code at the failing input). In a directory scan the files
    [SCAN.PDF] and [PHOTO.JPG] are not processed, although each of them is
    processed when it is given as the input path itself. *)
Theorem upper_case_extensions_skipped_in_directory :
  fst (process_input_path Sample.same_second ["in"] ["out"]
         Sample.client Sample.prompt Sample.upper_case) = Ok [] ∧
  fst (process_input_path Sample.same_second ["in"; "SCAN.PDF"] ["out"]
         Sample.client Sample.prompt Sample.upper_case) =
    Ok [["out"; "SCAN_20240615_123045"; "page_1_description.json"];
        ["out"; "SCAN_20240615_123045"; "SCAN_all_descriptions.json"]] ∧
  fst (process_input_path Sample.same_second ["in"; "PHOTO.JPG"] ["out"]
         Sample.client Sample.prompt Sample.upper_case) =
    Ok [["out"; "PHOTO_description_20240615_123045.json"]].
Proof. repeat split; vm_compute; reflexivity. Qed.




(** * The theorems at concrete inputs *)

Lemma process_pdf_page_and_combined_records_witness :
  disk Sample.one_pdf !! ["in"; "deck.pdf"] =
    Some (File (Pdf [Sample.slide; Sample.slide; Sample.slide])) ∧
  page_replies Sample.same_second Sample.client Sample.prompt 0
    [Sample.slide; Sample.slide; Sample.slide] = Ok <$> ["text 0"; "text 1"; "text 2"] ∧
  ∃ w' descs,
    process_pdf Sample.same_second ["in"; "deck.pdf"] ["out"]
      Sample.client Sample.prompt Sample.one_pdf =
      (Ok [["out"; "deck_20240615_123045"; "page_1_description.json"];
           ["out"; "deck_20240615_123045"; "page_2_description.json"];
           ["out"; "deck_20240615_123045"; "page_3_description.json"];
           ["out"; "deck_20240615_123045"; "deck_all_descriptions.json"]], w') ∧
    disk w' !! ["out"; "deck_20240615_123045"; "deck_all_descriptions.json"] =
      Some (File (Json (CombinedRecord "deck.pdf" "20240615_123045" 3 descs))) ∧
    (∀ key, is_Some (descs !! key) ↔ ∃ k, 1 ≤ k ≤ 3 ∧ key = pretty k).
Proof.
  assert (H1 : disk Sample.one_pdf !! ["in"; "deck.pdf"] =
               Some (File (Pdf [Sample.slide; Sample.slide; Sample.slide])))
    by (vm_compute; reflexivity).
  assert (H2 : page_replies Sample.same_second Sample.client Sample.prompt
                 (requests_sent Sample.one_pdf)
                 [Sample.slide; Sample.slide; Sample.slide] =
               Ok <$> ["text 0"; "text 1"; "text 2"])
    by (vm_compute; reflexivity).
  split; [exact H1|]. split; [exact H2|].
  destruct (process_pdf_page_and_combined_records Sample.same_second
              ["in"; "deck.pdf"] ["out"] Sample.client Sample.prompt Sample.one_pdf
              _ _ H1 H2) as (w' & descs & Hrun & _ & _ & Hcomb & Hkeys & _).
  exists w', descs. split; [exact Hrun|]. split; [exact Hcomb | exact Hkeys].
Defined.

Lemma process_pdf_zero_pages_witness :
  disk Sample.empty_pdf !! ["in"; "blank.pdf"] = Some (File (Pdf [])) ∧
  ∃ w',
    process_pdf Sample.same_second ["in"; "blank.pdf"] ["out"]
      Sample.client Sample.prompt Sample.empty_pdf =
      (Ok [["out"; "blank_20240615_123045"; "blank_all_descriptions.json"]], w') ∧
    disk w' !! ["out"; "blank_20240615_123045"; "blank_all_descriptions.json"] =
      Some (File (Json (CombinedRecord "blank.pdf" "20240615_123045" 0 ∅))).
Proof.
  assert (H1 : disk Sample.empty_pdf !! ["in"; "blank.pdf"] = Some (File (Pdf [])))
    by (vm_compute; reflexivity).
  split; [exact H1|].
  destruct (process_pdf_zero_pages Sample.same_second ["in"; "blank.pdf"] ["out"]
              Sample.client Sample.prompt Sample.empty_pdf H1)
    as (w' & Hrun & Hcomb & _).
  exists w'. split; [exact Hrun | exact Hcomb].
Defined.

Lemma process_pdf_page_failure_witness :
  disk Sample.one_pdf !! ["in"; "deck.pdf"] =
    Some (File (Pdf [Sample.slide; Sample.slide; Sample.slide])) ∧
  page_replies Sample.second_fails Sample.client Sample.prompt 0
    [Sample.slide; Sample.slide; Sample.slide] =
    (Ok <$> ["text 0"]) ++ Raise (OllamaApiError (HTTPError 500)) :: [Ok "text 2"] ∧
  ∃ w',
    process_pdf Sample.second_fails ["in"; "deck.pdf"] ["out"]
      Sample.client Sample.prompt Sample.one_pdf =
      (Raise (OllamaApiError (HTTPError 500)), w') ∧
    disk w' !! ["out"; "deck_20240615_123045"; "deck_all_descriptions.json"] = None ∧
    fst (process_input_path Sample.second_fails ["in"; "deck.pdf"] ["out"]
           Sample.client Sample.prompt Sample.one_pdf) =
      Raise (OllamaApiError (HTTPError 500)).
Proof.
  assert (H1 : disk Sample.one_pdf !! ["in"; "deck.pdf"] =
               Some (File (Pdf [Sample.slide; Sample.slide; Sample.slide])))
    by (vm_compute; reflexivity).
  assert (H2 : page_replies Sample.second_fails Sample.client Sample.prompt
                 (requests_sent Sample.one_pdf)
                 [Sample.slide; Sample.slide; Sample.slide] =
               (Ok <$> ["text 0"]) ++
                 Raise (OllamaApiError (HTTPError 500)) :: [Ok "text 2"])
    by (vm_compute; reflexivity).
  split; [exact H1|]. split; [exact H2|].
  destruct (process_pdf_page_failure Sample.second_fails
              ["in"; "deck.pdf"] ["out"] Sample.client Sample.prompt Sample.one_pdf
              _ _ _ _ H1 H2) as (w' & Hrun & _ & Hcomb & _ & Hdispatch).
  exists w'. split; [exact Hrun|]. split.
  - etransitivity; [exact Hcomb|]. vm_compute. reflexivity.
  - apply Hdispatch. vm_compute. reflexivity.
Defined.






(** * Further properties: the constructor *)

Section Constructor.

Variable registry : string → tags_outcome.
Variables (model url : string).

Lemma mapM_id_Some (names : list string) :
  mapM id (Some <$> names) = Some names.
Proof.
  induction names as [|x names IH]; [done|].
  rewrite fmap_cons. cbn [mapM]. rewrite IH. done.
Qed.

Lemma mapM_id_None (models : list (option string)) :
  None ∈ models → mapM id models = None.
Proof.
  induction models as [|[x|] models IH]; intros Hin.
  - by apply not_elem_of_nil in Hin.
  - apply elem_of_cons in Hin as [?|Hin]; [done|].
    cbn [mapM]. by rewrite (IH Hin).
  - done.
Qed.

End Constructor.


(** X2. When the registry answers with status 200 and a list of named
    models, construction succeeds and the client carries the given model
    name and URL; nothing is logged when the model is listed, and two
    warnings (the second one suggesting [ollama pull]) when it is not. *)
Theorem constructor_warns_when_model_missing (registry : string → tags_outcome)
    (model url : string) (names : list string) :
  registry (url +:+ "/api/tags") = TagsResponded 200 (Some (Some <$> names)) →
  OllamaClient_init registry model url =
    (if bool_decide (model ∈ names) then []
     else [LogWarning ("Model '" +:+ model +:+
                       "' not found in Ollama. Available models: " +:+
                       Text.join ", " names);
           LogWarning ("You may need to run: ollama pull " +:+ model)],
     Constructed (Client model url)).
Proof.
  intros Hreg. unfold OllamaClient_init, check_model_availability.
  cbn [api_url model_name]. rewrite Hreg.
  rewrite bool_decide_false by (intros H; by apply H).
  change (default [] (Some (Some <$> names))) with (Some <$> names).
  assert (Hiff : Some model ∈ Some <$> names ↔ model ∈ names).
  { rewrite list_elem_of_fmap. split.
    - by intros (x & [= <-] & Hx).
    - intros Hx. by exists model. }
  case_bool_decide as Hnot; case_bool_decide as Hin; try tauto.
  unfold join_names. by rewrite mapM_id_Some.
Qed.

(** X3. When the registry answers with status 200, the model is not listed
    and some entry of the list has no name, construction fails with the
    [TypeError] of the [join] in the warning, and nothing is logged. *)
Theorem constructor_type_error_on_nameless_entry (registry : string → tags_outcome)
    (model url : string) (models : list (option string)) :
  registry (url +:+ "/api/tags") = TagsResponded 200 (Some models) →
  None ∈ models →
  Some model ∉ models →
  OllamaClient_init registry model url = ([], InitRaised TypeError).
Proof.
  intros Hreg Hnone Hnot. unfold OllamaClient_init, check_model_availability.
  cbn [api_url model_name]. rewrite Hreg.
  rewrite bool_decide_false by (intros H; by apply H).
  change (default [] (Some models)) with models.
  rewrite bool_decide_true by done.
  unfold join_names. by rewrite (mapM_id_None models Hnone).
Qed.

(** * Further properties: one inference call, one image *)

Section CallFacts.

Variable E : env.
Variables (self : OllamaClient) (prompt : string).






End CallFacts.

(** X4. When the image does not exist or does not open as a picture,
    [generate] raises [FileNotFoundError] or the picture library's error
    before anything else happens: no scratch copy is written and no request
    is sent. *)
Theorem generate_without_readable_image (E : env) (self : OllamaClient)
    (prompt : string) (l : location) (w : world) :
  (∀ img, lookup_loc l w ≠ Some (File (Picture img))) →
  generate E self prompt l w =
    (Raise match lookup_loc l w with
           | Some _ => ImageOpenError l
           | None => FileNotFoundError l
           end, w).
Proof.
  intros Hno. destruct (lookup_loc l w) as [nd|] eqn:Hl.
  - apply (generate_no_picture E self prompt l w nd Hl).
    intros img ->. by apply (Hno img).
  - by apply generate_missing.
Qed.





(** * Further properties: one document *)

Section DocumentFacts.

Variable E : env.
Variables (pdf_path output_dir : path).
Variables (self : OllamaClient) (prompt : string).

Lemma process_pdf_temp (w w' : world) (r : result (list path)) :
  process_pdf E pdf_path output_dir self prompt w = (r, w') → temp w' = ∅.
Proof.
  unfold process_pdf, bind, datetime_now, mkdir_parents_exist_ok,
    with_temporary_directory.
  cbn [disk temp clock_reads requests_sent].
  destruct (process_pdf_pages _ _ _ _ _ _ _) as [r1 w1]. by intros [= _ <-].
Qed.

(** The failing run again, this time counting the requests. *)
Lemma process_pdf_raise_requests (w : world) (pages : list image) (ds : list string)
    (e : exn) (later : list (result string)) :
  disk w !! pdf_path = Some (File (Pdf pages)) →
  page_replies E self prompt (requests_sent w) pages = (Ok <$> ds) ++ Raise e :: later →
  ∃ w',
    process_pdf E pdf_path output_dir self prompt w = (Raise e, w') ∧
    requests_sent w' = requests_sent w + length ds + 1.
Proof.
  intros Hpdf Hrep.
  set (folder := pdf_folder output_dir (stem pdf_path) (stamp E (clock_reads w))).
  set (w1 := World (make_dirs (disk w) folder) ∅ (S (clock_reads w)) (requests_sent w)).
  destruct (save_pages_from pages 0 [] w1) as (t' & Hsave & Htp & _).
  set (w2 := World (disk w1) t' (clock_reads w1) (requests_sent w1)) in Hsave.
  destruct (page_loop_raise E pdf_path folder (stamp E (clock_reads w)) self prompt
              ds pages e later 0 [] ∅ w2)
    as (w3 & Hrun & _ & Hreq & _); [exact Htp | exact Hrep |].
  exists (World (disk w3) ∅ (clock_reads w3) (requests_sent w3)). split.
  - apply process_pdf_unfold. fold folder w1. unfold process_pdf_pages.
    rewrite (bind_ok _ _ _ _ _ (convert_from_path_pdf pdf_path w1 pages
               (make_dirs_lookup_Some _ folder _ _ Hpdf))).
    unfold save_pages. rewrite (bind_ok _ _ _ _ _ Hsave).
    cbn [app] in *. by rewrite (bind_raise _ _ _ _ _ Hrun).
  - exact Hreq.
Qed.

End DocumentFacts.

(** X9. Whatever its outcome, [process_pdf] leaves the temporary directory
    empty and confines its writes to the document's own folder: every other
    path keeps its entry or becomes a new directory. In particular no
    scratch copy of a page remains anywhere. *)
Theorem process_pdf_stays_in_its_folder (E : env) (pdf_path output_dir : path)
    (self : OllamaClient) (prompt : string) (w w' : world) (r : result (list path)) :
  process_pdf E pdf_path output_dir self prompt w = (r, w') →
  let folder := pdf_folder output_dir (stem pdf_path) (stamp E (clock_reads w)) in
  temp w' = ∅ ∧
  (∀ p, disk w' !! p = disk w !! p ∨
        (disk w !! p = None ∧ disk w' !! p = Some Dir) ∨
        (∃ f, p = folder ++ [f])).
Proof.
  intros Hrun folder. split; [by eapply process_pdf_temp|].
  assert (Hmk : ∀ p, make_dirs (disk w) folder !! p = disk w !! p ∨
                     (disk w !! p = None ∧ make_dirs (disk w) folder !! p = Some Dir))
    by (intros p; apply make_dirs_changes).
  assert ((∃ pages, disk w !! pdf_path = Some (File (Pdf pages))) ∨
          (∀ pages, disk w !! pdf_path ≠ Some (File (Pdf pages))))
    as [[pages Hpdf]|Hno].
  { destruct (disk w !! pdf_path) as [[|[b|img|ps|doc]]|]; eauto. }
  - destruct (results_split (page_replies E self prompt (requests_sent w) pages))
      as [(ds & Hrep)|(ds & e & later & Hrep)].
    + destruct (process_pdf_ok E pdf_path output_dir self prompt w pages ds Hpdf Hrep)
        as (w'' & descs & Hrun' & _ & _ & _ & _ & _ & _ & Hframe).
      rewrite Hrun' in Hrun. injection Hrun as <- <-. intros p.
      destruct (page_path_cases p folder (length pages)) as [(j & _ & ->)|Hnp];
        [right; right; by eexists|].
      destruct (decide (p = combined_record_path folder (stem pdf_path))) as [->|Hnc];
        [right; right; by eexists|].
      rewrite (Hframe p Hnp Hnc). destruct (Hmk p) as [?|?]; auto.
    + destruct (process_pdf_raise E pdf_path output_dir self prompt w pages ds e later
                  Hpdf Hrep) as (w'' & Hrun' & _ & _ & Hframe).
      rewrite Hrun' in Hrun. injection Hrun as <- <-. intros p.
      destruct (page_path_cases p folder (length ds)) as [(j & _ & ->)|Hnp];
        [right; right; by eexists|].
      rewrite (Hframe p Hnp). destruct (Hmk p) as [?|?]; auto.
  - rewrite (process_pdf_no_pdf E pdf_path output_dir self prompt w Hno) in Hrun.
    injection Hrun as <- <-. intros p. cbn [disk]. destruct (Hmk p) as [?|?]; auto.
Qed.

(** X10. On a file that is no readable PDF, [process_pdf] fails with the
    conversion error after it has read the clock and created the document's
    folder: the folder is left behind empty, and no request has been sent. *)
Theorem process_pdf_unreadable_leaves_folder (E : env) (pdf_path output_dir : path)
    (self : OllamaClient) (prompt : string) (w : world) :
  (∀ pages, disk w !! pdf_path ≠ Some (File (Pdf pages))) →
  let folder := pdf_folder output_dir (stem pdf_path) (stamp E (clock_reads w)) in
  ∃ w',
    process_pdf E pdf_path output_dir self prompt w =
      (Raise (PdfConversionError pdf_path), w') ∧
    (disk w !! folder = None → disk w' !! folder = Some Dir) ∧
    (∀ f, disk w' !! (folder ++ [f]) = disk w !! (folder ++ [f])) ∧
    clock_reads w' = S (clock_reads w) ∧
    requests_sent w' = requests_sent w.
Proof.
  intros Hno folder.
  rewrite (process_pdf_no_pdf E pdf_path output_dir self prompt w Hno).
  eexists. split; [reflexivity|]. cbn [disk clock_reads requests_sent]. fold folder.
  split; [|split; [|by split]].
  - intros Hnone. rewrite make_dirs_lookup, Hnone.
    rewrite decide_True; [done | apply self_in_ancestors].
  - intros f. rewrite make_dirs_lookup. destruct (disk w !! (folder ++ [f])); [done|].
    rewrite decide_False; [done|].
    intros Hin%ancestors_length. rewrite length_app in Hin. simpl in Hin. lia.
Qed.

(** X11. [process_pdf] sends one request per page and never repeats one:
    after a success it has sent as many requests as the document has pages;
    after a failure it has sent [k] requests, where page [k] is the first
    page whose call failed, and the exception raised is that call's. *)
Theorem process_pdf_sends_one_request_per_page (E : env) (pdf_path output_dir : path)
    (self : OllamaClient) (prompt : string) (w w' : world) (pages : list image)
    (r : result (list path)) :
  disk w !! pdf_path = Some (File (Pdf pages)) →
  process_pdf E pdf_path output_dir self prompt w = (r, w') →
  match r with
  | Ok _ => requests_sent w' = requests_sent w + length pages
  | Raise e =>
      ∃ k, 1 ≤ k ≤ length pages ∧
           requests_sent w' = requests_sent w + k ∧
           page_replies E self prompt (requests_sent w) pages !! (k - 1) = Some (Raise e) ∧
           ∀ j, j < k - 1 → ∃ d,
             page_replies E self prompt (requests_sent w) pages !! j = Some (Ok d)
  end.
Proof.
  intros Hpdf Hrun.
  destruct (results_split (page_replies E self prompt (requests_sent w) pages))
    as [(ds & Hrep)|(ds & e & later & Hrep)].
  - destruct (process_pdf_ok E pdf_path output_dir self prompt w pages ds Hpdf Hrep)
      as (w'' & descs & Hrun' & _ & Hreq & _).
    rewrite Hrun' in Hrun. by injection Hrun as <- <-.
  - destruct (process_pdf_raise_requests E pdf_path output_dir self prompt w pages ds
                e later Hpdf Hrep) as (w'' & Hrun' & Hreq).
    rewrite Hrun' in Hrun. injection Hrun as <- <-.
    assert (Hlen : length pages = length ds + S (length later)).
    { apply (f_equal length) in Hrep.
      rewrite page_replies_length, length_app, length_fmap in Hrep. exact Hrep. }
    exists (length ds + 1). split; [lia|]. split; [lia|]. rewrite Hrep. split.
    + replace (length ds + 1 - 1) with (length (Ok <$> ds) + 0)
        by (rewrite length_fmap; lia).
      by rewrite lookup_app_r, length_fmap, Nat.add_comm, Nat.add_sub
        by (rewrite length_fmap; lia).
    + intros j Hj. destruct (lookup_lt_is_Some_2 ds j) as [d Hd]; [lia|].
      exists d. rewrite lookup_app_l by (rewrite length_fmap; lia).
      by rewrite list_lookup_fmap, Hd.
Qed.

(** X12. [process_pdf] returns a list only when the file is a readable PDF
    and the inference call of every page succeeded; the list then has one
    path per page and one more. *)
Theorem process_pdf_success_needs_every_page (E : env) (pdf_path output_dir : path)
    (self : OllamaClient) (prompt : string) (w w' : world) (fs : list path) :
  process_pdf E pdf_path output_dir self prompt w = (Ok fs, w') →
  ∃ pages ds,
    disk w !! pdf_path = Some (File (Pdf pages)) ∧
    page_replies E self prompt (requests_sent w) pages = Ok <$> ds ∧
    length fs = length pages + 1.
Proof.
  intros Hrun.
  assert ((∃ pages, disk w !! pdf_path = Some (File (Pdf pages))) ∨
          (∀ pages, disk w !! pdf_path ≠ Some (File (Pdf pages))))
    as [[pages Hpdf]|Hno].
  { destruct (disk w !! pdf_path) as [[|[b|img|ps|doc]]|]; eauto. }
  - destruct (results_split (page_replies E self prompt (requests_sent w) pages))
      as [(ds & Hrep)|(ds & e & later & Hrep)].
    + destruct (process_pdf_ok E pdf_path output_dir self prompt w pages ds Hpdf Hrep)
        as (w'' & descs & Hrun' & _).
      rewrite Hrun' in Hrun. injection Hrun as <- <-.
      exists pages, ds. split; [done|]. split; [done|].
      rewrite length_app, length_fmap, length_seq. done.
    + destruct (process_pdf_raise E pdf_path output_dir self prompt w pages ds e later
                  Hpdf Hrep) as (w'' & Hrun' & _).
      rewrite Hrun' in Hrun. done.
  - by rewrite (process_pdf_no_pdf E pdf_path output_dir self prompt w Hno) in Hrun.
Qed.

(** * Further properties: directories *)

Section Loops.

Context {A B : Type}.
Variables (f : A → M B) (g : B → list path).

(** A loop that extends a list by what [f] returns for each element. *)
Lemma collect_loop_ok (l : list A) : ∀ (i0 : nat) (acc acc' : list path) (w w' : world),
  for_enumerate (λ _ x acc, bind (f x) (λ b, ret (acc ++ g b))) i0 l acc w = (Ok acc', w') →
  ∃ bs, acc' = acc ++ concat (g <$> bs) ∧
        Forall2 (λ x b, ∃ w1 w2, f x w1 = (Ok b, w2)) l bs.
Proof.
  induction l as [|x l IH]; intros i0 acc acc' w w' Hrun.
  - injection Hrun as <- <-. exists []. split; [by rewrite app_nil_r | constructor].
  - cbn [for_enumerate] in Hrun. unfold bind at 1 in Hrun. unfold bind at 1 in Hrun.
    destruct (f x w) as [[b|e] w1] eqn:Hfx; [|done].
    unfold ret at 1 in Hrun.
    destruct (IH _ _ _ _ _ Hrun) as (bs & -> & Hall).
    exists (b :: bs). split.
    + rewrite fmap_cons. cbn [concat]. by rewrite app_assoc.
    + constructor; [eauto | done].
Qed.


End Loops.

Section DirectoryFacts.

Variable E : env.
Variables (input_path output_dir : path).
Variables (self : OllamaClient) (prompt : string).

Lemma concat_singletons {A} (l : list A) : concat ((λ x, [x]) <$> l) = l.
Proof. induction l as [|x l IH]; [done|]. rewrite fmap_cons. simpl. by f_equal. Qed.

(** The five image scans, written out. *)
Lemma image_scan_unfold (d : gmap path node) :
  foldl (λ acc ext, acc ++ glob_list d input_path ext) [] image_suffixes =
    glob_list d input_path ".jpg" ++ glob_list d input_path ".jpeg" ++
    glob_list d input_path ".png" ++ glob_list d input_path ".bmp" ++
    glob_list d input_path ".gif".
Proof. cbn [foldl image_suffixes]. by rewrite <- !app_assoc. Qed.

(** The directory branch is the scan followed by the two loops. *)
Lemma process_directory_unfold (w : world) :
  process_directory E input_path output_dir self prompt [] w =
    bind (for_enumerate
            (λ _ pdf_file output_files,
               bind (process_pdf E pdf_file output_dir self prompt)
                    (λ fs, ret (output_files ++ fs)))
            0 (glob_list (disk w) input_path ".pdf") [])
      (λ output_files,
         bind (for_enumerate
                 (λ _ image_file output_files,
                    bind (process_image E image_file output_dir self prompt)
                         (λ f, ret (output_files ++ [f])))
                 0 (foldl (λ acc ext, acc ++ glob_list (disk w) input_path ext)
                          [] image_suffixes) output_files)
           (λ output_files, ret output_files)) w.
Proof.
  unfold process_directory. unfold bind at 1, glob_rec. unfold bind at 1.
  by rewrite find_image_files_run.
Qed.

End DirectoryFacts.

(** X13. A directory run that succeeds returns, in the order of the scan,
    one block per PDF found, made of that document's page records and its
    combined record, and after all blocks one record per image found, named
    after that image. *)
Theorem directory_run_collects_in_scan_order (E : env) (input_path output_dir : path)
    (self : OllamaClient) (prompt : string) (w w' : world) (fs : list path) :
  let d := make_dirs (disk w) output_dir in
  d !! input_path = Some Dir →
  process_input_path E input_path output_dir self prompt w = (Ok fs, w') →
  ∃ blocks records,
    fs = concat blocks ++ records ∧
    Forall2 (λ pdf block, ∃ ts n,
               block = (page_record_path (pdf_folder output_dir (stem pdf) ts) <$> seq 1 n) ++
                       [combined_record_path (pdf_folder output_dir (stem pdf) ts) (stem pdf)])
            (glob_list d input_path ".pdf") blocks ∧
    Forall2 (λ img record, ∃ ts, record = image_record_path output_dir (stem img) ts)
            (glob_list d input_path ".jpg" ++ glob_list d input_path ".jpeg" ++
             glob_list d input_path ".png" ++ glob_list d input_path ".bmp" ++
             glob_list d input_path ".gif") records.
Proof.
  intros d Hdir Hrun.
  rewrite (process_input_path_dir E _ _ _ _ _ Hdir), process_directory_unfold in Hrun.
  cbn [disk] in Hrun. fold d in Hrun. rewrite image_scan_unfold in Hrun.
  unfold bind at 1 in Hrun.
  destruct (for_enumerate _ 0 (glob_list d input_path ".pdf") [] _)
    as [[acc|e] w1] eqn:Hpdfs; [|done].
  unfold bind at 1 in Hrun.
  destruct (for_enumerate _ 0 _ acc w1) as [[acc'|e] w2] eqn:Himgs; [|done].
  injection Hrun as <- <-.
  apply (collect_loop_ok (λ x, process_pdf E x output_dir self prompt) (λ b, b))
    in Hpdfs as (blocks & -> & Hblocks).
  apply (collect_loop_ok (λ x, process_image E x output_dir self prompt) (λ b, [b]))
    in Himgs as (records & -> & Hrecords).
  exists blocks, records. rewrite list_fmap_id, concat_singletons. split; [done|]. split.
  - eapply Forall2_impl; [exact Hblocks|].
    intros pdf block (w3 & w4 & Hone).
    destruct (process_pdf_run E output_dir self prompt pdf w3 w4 _ Hone) as (_ & _ & Hok).
    destruct (Hok block eq_refl) as [[n Hn] _]. eauto.
  - eapply Forall2_impl; [exact Hrecords|].
    intros img record (w3 & w4 & Hone).
    destruct (process_image_run E output_dir self prompt img w3 w4 _ Hone) as (_ & Hok).
    destruct (Hok record eq_refl) as (Hn & _). eauto.
Qed.


Section ScanFacts.

Lemma str_take_drop (n : nat) (s : string) : Str.take n s +:+ Str.drop n s = s.
Proof.
  revert s. induction n as [|n IH]; intros [|a s]; try done.
  cbn [Str.take Str.drop]. rewrite str_app_cons. by f_equal.
Qed.

(** A name that [endswith] a suffix is some text followed by that suffix. *)
Lemma ends_with_split (suf s : string) :
  Str.ends_with suf s = true → ∃ pre, s = pre +:+ suf.
Proof.
  unfold Str.ends_with. intros [Heq _]%andb_true_iff.
  apply String.eqb_eq in Heq.
  exists (Str.take (String.length s - String.length suf) s).
  transitivity (Str.take (String.length s - String.length suf) s +:+
                Str.drop (String.length s - String.length suf) s);
    [symmetry; apply str_take_drop | by rewrite Heq].
Qed.

Ltac split_jpeg H :=
  match type of H with
  | ?a +:+ ".jpeg" = ?b +:+ ".jpeg" => idtac
  | ?a +:+ ".jpeg" = _ =>
      change (a +:+ ".jpeg") with (a +:+ ("." +:+ "jpeg")) in H;
      rewrite <- (str_app_assoc a "." "jpeg") in H
  | _ = ?b +:+ ".jpeg" =>
      change (b +:+ ".jpeg") with (b +:+ ("." +:+ "jpeg")) in H;
      rewrite <- (str_app_assoc b "." "jpeg") in H
  | _ => idtac
  end.

(** No name ends with two of the six extensions. *)
Lemma extensions_exclusive (e1 e2 nm : string) :
  e1 ∈ pdf_suffixes ++ image_suffixes →
  e2 ∈ pdf_suffixes ++ image_suffixes →
  Str.ends_with e1 nm = true → Str.ends_with e2 nm = true → e1 = e2.
Proof.
  intros H1 H2 [pre1 ->]%ends_with_split [pre2 Heq]%ends_with_split.
  unfold pdf_suffixes, image_suffixes in H1, H2. cbn [app] in H1, H2.
  repeat (apply elem_of_cons in H1 as [->|H1]);
    try (by apply not_elem_of_nil in H1);
    repeat (apply elem_of_cons in H2 as [->|H2]);
    try (by apply not_elem_of_nil in H2);
    try reflexivity;
    exfalso; split_jpeg Heq;
    apply str_app_inj_tail in Heq as [_ Heq]; (discriminate Heq || reflexivity).
Qed.

Variables (d : gmap path node) (root : path).

Lemma scan_member (exts : list string) (p : path) :
  p ∈ concat (glob_list d root <$> exts) ↔ ∃ ext, ext ∈ exts ∧ p ∈ glob_list d root ext.
Proof.
  induction exts as [|e exts IH].
  - split; [by intros ?%not_elem_of_nil | by intros (ext & ?%not_elem_of_nil & _)].
  - rewrite fmap_cons. cbn [concat]. rewrite elem_of_app, IH. split.
    + intros [Hp|(ext & Hext & Hp)]; [exists e | exists ext];
        (split; [|done]); [by left | by right].
    + intros (ext & [->|Hext]%elem_of_cons & Hp); [by left | right; eauto].
Qed.

Lemma scan_NoDup (exts : list string) :
  NoDup exts →
  (∀ e1 e2 nm, e1 ∈ exts → e2 ∈ exts →
     Str.ends_with e1 nm = true → Str.ends_with e2 nm = true → e1 = e2) →
  NoDup (concat (glob_list d root <$> exts)).
Proof.
  induction exts as [|e exts IH]; intros Hnd Hex; [constructor|].
  rewrite fmap_cons. cbn [concat]. apply NoDup_cons in Hnd as [Hne Hnd].
  apply NoDup_app. split; [apply glob_list_NoDup|]. split.
  - intros p Hp (ext & Hext & Hp')%scan_member.
    apply glob_list_spec in Hp as (_ & _ & Hp).
    apply glob_list_spec in Hp' as (_ & _ & Hp').
    apply Hne. rewrite (Hex e ext (name p)); [done|by left|by right|done|done].
  - apply IH; [done|]. intros e1 e2 nm H1 H2. apply Hex; by right.
Qed.

End ScanFacts.

(** X15. The scan of a directory lists every file at most once, PDFs and
    images taken together, so no file is processed twice in one run; listed
    are exactly the entries below the directory, at any depth, whose name
    ends with [.pdf], [.jpg], [.jpeg], [.png], [.bmp] or [.gif] written in
    lower case. *)
Theorem directory_scan_lists_each_file_once (input_path : path) (w : world) :
  ∃ pdf_files image_files,
    glob_rec input_path ".pdf" w = (Ok pdf_files, w) ∧
    find_image_files input_path w = (Ok image_files, w) ∧
    NoDup (pdf_files ++ image_files) ∧
    (∀ p, p ∈ pdf_files ++ image_files ↔
          is_Some (disk w !! p) ∧ below input_path p = true ∧
          ∃ ext, ext ∈ pdf_suffixes ++ image_suffixes ∧
                 Str.ends_with ext (name p) = true).
Proof.
  eexists _, _. split; [reflexivity|]. split; [apply find_image_files_run|].
  assert (Hall : glob_list (disk w) input_path ".pdf" ++
                 foldl (λ acc ext, acc ++ glob_list (disk w) input_path ext)
                       [] image_suffixes =
                 concat (glob_list (disk w) input_path <$>
                           pdf_suffixes ++ image_suffixes)).
  { rewrite image_scan_unfold. cbn. by rewrite app_nil_r. }
  rewrite Hall. split.
  - apply scan_NoDup; [|apply extensions_exclusive].
    unfold pdf_suffixes, image_suffixes. cbn [app].
    repeat (apply NoDup_cons; split;
            [intros Hin; repeat (apply elem_of_cons in Hin as [Hin|Hin]; [done|]);
             by apply not_elem_of_nil in Hin|]).
    constructor.
  - intros p. rewrite scan_member. split.
    + intros (ext & Hext & Hp). apply glob_list_spec in Hp as (Hsome & Hbelow & Hends).
      eauto.
    + intros (Hsome & Hbelow & ext & Hext & Hends). exists ext. split; [done|].
      by apply glob_list_spec.
Qed.

(** * Further properties: what a run leaves behind *)

Section Leftovers.

Lemma str_drop_app (a b : string) : Str.drop (String.length a) (a +:+ b) = b.
Proof.
  induction a as [|x a IH]; [by destruct b|].
  rewrite str_app_cons. exact IH.
Qed.

Lemma ends_with_app (a suf : string) : Str.ends_with suf (a +:+ suf) = true.
Proof.
  unfold Str.ends_with. rewrite str_app_length.
  replace (String.length a + String.length suf - String.length suf)
    with (String.length a) by lia.
  rewrite str_drop_app. apply andb_true_iff. split.
  - apply String.eqb_refl.
  - apply Nat.leb_le. lia.
Qed.

Lemma name_snoc (q : path) (x : string) : name (q ++ [x]) = x.
Proof. unfold name. apply last_last. Qed.

Lemma resized_name_ends (p : path) :
  resized_name p → Str.ends_with "_resized.jpg" (name p) = true.
Proof. intros (q & s & ->). rewrite name_snoc. apply ends_with_app. Qed.

(** Every record, of an image or of a document, has a name in [.json]. *)
Lemma artifact_name_ends (E : env) (out : path) (lo hi : nat) (p : path) :
  artifact_of E out lo hi p → Str.ends_with ".json" (name p) = true.
Proof.
  intros [(st & k & _ & ->)|(st & k & f & _ & ->)].
  - unfold image_record_path, joinpath. rewrite name_snoc.
    generalize (stamp E k). intros ts.
    rewrite <- (str_app_assoc "_description_" ts ".json").
    rewrite <- (str_app_assoc st ("_description_" +:+ ts) ".json").
    apply ends_with_app.
  - rewrite name_snoc. apply ends_with_app.
Qed.


End Leftovers.

(** X16. Whatever its outcome, a run deletes nothing, and every entry that
    was there before and whose name ends neither in [.json] nor in
    [_resized.jpg] is afterwards as it was: a run does not alter its
    inputs. *)
Theorem run_leaves_other_files_untouched (E : env) (input_path output_dir : path)
    (self : OllamaClient) (prompt : string) (w w' : world) (r : result (list path)) :
  process_input_path E input_path output_dir self prompt w = (r, w') →
  ∀ p nd, disk w !! p = Some nd →
    is_Some (disk w' !! p) ∧
    (Str.ends_with ".json" (name p) = false →
     Str.ends_with "_resized.jpg" (name p) = false →
     disk w' !! p = Some nd).
Proof.
  intros Hrun p nd Hp.
  destruct (process_input_path_run E output_dir self prompt input_path w w' r Hrun)
    as [[_ [Hkeep Hchange]] _].
  split; [apply Hkeep; by rewrite Hp|].
  intros Hjson Hresized.
  destruct (Hchange p) as [Heq|[Hnone|[Hres|Hart]]].
  - by rewrite Heq.
  - by rewrite Hp in Hnone.
  - apply resized_name_ends in Hres. by rewrite Hres in Hresized.
  - apply artifact_name_ends in Hart. by rewrite Hart in Hjson.
Qed.


Section EmptyScan.

Variables (d : gmap path node) (root : path).

(** The scan finds nothing exactly when no entry below the root has a name
    that ends with one of the six extensions. *)
Lemma scan_empty_iff :
  (glob_list d root ".pdf" = [] ∧
   glob_list d root ".jpg" ++ glob_list d root ".jpeg" ++ glob_list d root ".png" ++
   glob_list d root ".bmp" ++ glob_list d root ".gif" = []) ↔
  (∀ p ext, is_Some (d !! p) → below root p = true →
            ext ∈ pdf_suffixes ++ image_suffixes →
            Str.ends_with ext (name p) = false).
Proof.
  split.
  - intros [Hpdf Himg] p ext Hsome Hbelow Hext.
    destruct (Str.ends_with ext (name p)) eqn:Hends; [exfalso|done].
    assert (Hin : p ∈ glob_list d root ext) by by apply glob_list_spec.
    unfold pdf_suffixes, image_suffixes in Hext. cbn [app] in Hext.
    apply elem_of_cons in Hext as [->|Hext].
    { rewrite Hpdf in Hin. by apply not_elem_of_nil in Hin. }
    apply (not_elem_of_nil p). rewrite <- Himg. rewrite !elem_of_app.
    repeat (apply elem_of_cons in Hext as [->|Hext]; [tauto|]).
    by apply not_elem_of_nil in Hext.
  - intros Hnone.
    assert (Hno : ∀ ext, ext ∈ pdf_suffixes ++ image_suffixes → glob_list d root ext = []).
    { intros ext Hext. apply elem_of_nil_inv. intros p Hp.
      apply glob_list_spec in Hp as (Hsome & Hbelow & Hends).
      by rewrite (Hnone p ext Hsome Hbelow Hext) in Hends. }
    unfold pdf_suffixes, image_suffixes in Hno. cbn [app] in Hno.
    rewrite !Hno by (repeat first [by left | right]). done.
Qed.

End EmptyScan.

(** X18. A directory run returns the empty list exactly when the scan finds
    nothing, that is when no entry below the directory has a name ending
    with one of the six extensions as written; the run then reads no clock,
    sends no request and creates nothing but the output directory. *)
Theorem directory_run_empty_iff_nothing_found (E : env) (input_path output_dir : path)
    (self : OllamaClient) (prompt : string) (w : world) :
  let d := make_dirs (disk w) output_dir in
  let nothing_found :=
    ∀ p ext, is_Some (d !! p) → below input_path p = true →
             ext ∈ pdf_suffixes ++ image_suffixes →
             Str.ends_with ext (name p) = false in
  d !! input_path = Some Dir →
  (fst (process_input_path E input_path output_dir self prompt w) = Ok [] ↔
   nothing_found) ∧
  (nothing_found →
   snd (process_input_path E input_path output_dir self prompt w) =
     World d (temp w) (clock_reads w) (requests_sent w)).
Proof.
  intros d nothing_found Hdir.
  rewrite (process_input_path_dir E _ _ _ _ _ Hdir), process_directory_unfold.
  cbn [disk]. fold d. rewrite image_scan_unfold.
  assert (Hback : nothing_found →
            glob_list d input_path ".pdf" = [] ∧
            glob_list d input_path ".jpg" ++ glob_list d input_path ".jpeg" ++
            glob_list d input_path ".png" ++ glob_list d input_path ".bmp" ++
            glob_list d input_path ".gif" = []).
  { apply (proj2 (scan_empty_iff d input_path)). }
  split; [split|].
  - intros Hrun. refine (proj1 (scan_empty_iff d input_path) _).
    unfold bind at 1 in Hrun.
    destruct (for_enumerate _ 0 (glob_list d input_path ".pdf") [] _)
      as [[acc|e] w1] eqn:Hpdfs; [|done].
    unfold bind at 1 in Hrun.
    destruct (for_enumerate _ 0 _ acc w1) as [[acc'|e] w2] eqn:Himgs; [|done].
    cbn in Hrun. injection Hrun as ->.
    apply (collect_loop_ok (λ x, process_pdf E x output_dir self prompt) (λ b, b))
      in Hpdfs as (blocks & -> & Hblocks).
    apply (collect_loop_ok (λ x, process_image E x output_dir self prompt) (λ b, [b]))
      in Himgs as (records & Hnil & Hrecords).
    symmetry in Hnil. apply app_nil in Hnil as [Hconcat Hrec].
    rewrite concat_singletons in Hrec. subst records.
    apply Forall2_length in Hrecords. split; [|by apply length_zero_iff_nil].
    rewrite list_fmap_id in Hconcat. cbn [app] in Hconcat.
    destruct Hblocks as [|pdf block pdfs blocks (w3 & w4 & Hone) _]; [done|].
    exfalso.
    destruct (process_pdf_run E output_dir self prompt pdf w3 w4 _ Hone) as (_ & _ & Hok).
    destruct (Hok block eq_refl) as [[n ->] _].
    cbn [concat] in Hconcat. apply app_nil in Hconcat as [[_ Hc]%app_nil _]. done.
  - intros [-> ->]%Hback. reflexivity.
  - intros [-> ->]%Hback. reflexivity.
Qed.

(** * Further properties: the command line entry point *)

Section Summary.

Lemma is_prefix_app (a b : string) : Text.is_prefix a (a +:+ b) = true.
Proof.
  induction a as [|x a IH]; [done|].
  rewrite str_app_cons. cbn [Text.is_prefix]. by rewrite Ascii.eqb_refl, IH.
Qed.

Lemma contains_app_l (sub pre s : string) :
  Text.contains sub s = true → Text.contains sub (pre +:+ s) = true.
Proof.
  intros Hs. induction pre as [|x pre IH]; [done|].
  rewrite str_app_cons. cbn [Text.contains]. rewrite IH. apply orb_true_r.
Qed.

(** [sub in a + sub + b] *)
Lemma contains_mid (sub a b : string) : Text.contains sub (a +:+ sub +:+ b) = true.
Proof.
  apply contains_app_l.
  assert (Hp := is_prefix_app sub b).
  destruct (sub +:+ b); cbn [Text.contains]; by rewrite Hp.
Qed.

Lemma join_snoc (sep : string) (l : list string) (x : string) :
  ∃ pre, Text.join sep (l ++ [x]) = pre +:+ x.
Proof.
  induction l as [|y l [pre IH]]; [by exists ""|].
  exists (y +:+ sep +:+ pre). cbn [app Text.join]. rewrite IH.
  destruct (l ++ [x]) eqn:Hl; [by destruct l|].
  by rewrite !str_app_assoc.
Qed.

(** The text of a path ends with its last component. *)
Lemma path_str_snoc (q : path) (x : string) : ∃ pre, path_str (q ++ [x]) = pre +:+ x.
Proof.
  destruct q as [|y q].
  - exists "". unfold path_str. cbn [app].
    repeat match goal with
           | |- context [match ?v with _ => _ end] => destruct v
           end; reflexivity.
  - assert (Hroot : ∃ pre, "/" +:+ Text.join "/" (q ++ [x]) = pre +:+ x).
    { destruct (join_snoc "/" q x) as [pre ->]. exists ("/" +:+ pre).
      by rewrite str_app_assoc. }
    assert (Hrel : ∃ pre, Text.join "/" (y :: q ++ [x]) = pre +:+ x).
    { apply (join_snoc "/" (y :: q) x). }
    unfold path_str. cbn [app].
    repeat match goal with
           | |- context [match ?v with _ => _ end] => destruct v
           end; assumption.
Qed.

Lemma contains_in_name (sub : string) (q : path) (a b : string) :
  Text.contains sub (path_str (q ++ [a +:+ sub +:+ b])) = true.
Proof.
  destruct (path_str_snoc q (a +:+ sub +:+ b)) as [pre ->].
  rewrite <- str_app_assoc. apply contains_mid.
Qed.

Lemma combined_record_is_pdf_output (folder : path) (st : string) :
  Text.contains "_all_descriptions.json"
    (path_str (combined_record_path folder st)) = true.
Proof.
  unfold combined_record_path, joinpath.
  apply (contains_in_name "_all_descriptions.json" folder st "").
Qed.

Lemma image_record_is_description (out : path) (st ts : string) :
  Text.contains "_description_" (path_str (image_record_path out st ts)) = true.
Proof.
  unfold image_record_path, joinpath.
  apply (contains_in_name "_description_" out st (ts +:+ ".json")).
Qed.

(** The two lists of the summary have no element in common, and together
    they hold the files whose text contains one of the two markers. *)
Lemma summary_lengths (output_files l : list path) :
  l ⊆ output_files →
  length (filter (λ f, Text.contains "_all_descriptions.json" (path_str f) = true) l) +
  length (filter (λ f, Text.contains "_description_" (path_str f) = true ∧
                       f ∉ pdf_outputs output_files) l) =
  length (filter (λ f, Text.contains "_all_descriptions.json" (path_str f) = true ∨
                       Text.contains "_description_" (path_str f) = true) l).
Proof.
  induction l as [|x l IH]; intros Hsub; [done|].
  assert (Hx : x ∈ output_files) by (apply Hsub; by left).
  assert (Hl : l ⊆ output_files) by (intros y Hy; apply Hsub; by right).
  specialize (IH Hl). rewrite !filter_cons.
  destruct (decide (Text.contains "_all_descriptions.json" (path_str x) = true))
    as [Hp|Hp].
  - rewrite decide_False, decide_True by tauto || (intros [_ Hn]; apply Hn;
      unfold pdf_outputs; by apply list_elem_of_filter).
    cbn [length]. lia.
  - destruct (decide (Text.contains "_description_" (path_str x) = true)) as [Hq|Hq].
    + rewrite decide_True, decide_True by tauto || (split; [done|];
        unfold pdf_outputs; rewrite list_elem_of_filter; tauto).
      cbn [length]. lia.
    + rewrite decide_False, decide_False by tauto. lia.
Qed.

Lemma summary_total (output_files : list path) :
  length (pdf_outputs output_files) + length (image_outputs output_files) =
  length (filter (λ f, Text.contains "_all_descriptions.json" (path_str f) = true ∨
                       Text.contains "_description_" (path_str f) = true) output_files).
Proof.
  unfold image_outputs. unfold pdf_outputs at 1. by apply summary_lengths.
Qed.

(** A list of blocks each of which holds an element with [P] has at least
    as many elements with [P] as blocks. *)
Lemma filter_concat_length (P : path → Prop) `{!∀ x, Decision (P x)}
    (blocks : list (list path)) :
  Forall (λ b, ∃ x, x ∈ b ∧ P x) blocks →
  length blocks ≤ length (filter P (concat blocks)).
Proof.
  induction 1 as [|b blocks (x & Hx & HP) _ IH]; [done|].
  cbn [concat length]. rewrite filter_app, length_app.
  assert (Hin : x ∈ filter P b) by by apply list_elem_of_filter.
  destruct (filter P b); [by apply not_elem_of_nil in Hin|]. cbn [length]. lia.
Qed.

Lemma filter_all_length (P : path → Prop) `{!∀ x, Decision (P x)} (l : list path) :
  Forall P l → length (filter P l) = length l.
Proof.
  induction 1 as [|x l HP _ IH]; [done|].
  rewrite filter_cons, decide_True by done. cbn [length]. by rewrite IH.
Qed.

End Summary.

(** What a successful directory run returns, counted: one block with a
    combined record per PDF found, one image record per image found. *)
Lemma directory_run_counted (E : env) (input_path output_dir : path)
    (self : OllamaClient) (prompt : string) (w w' : world) (fs : list path) :
  let d := make_dirs (disk w) output_dir in
  d !! input_path = Some Dir →
  process_input_path E input_path output_dir self prompt w = (Ok fs, w') →
  ∃ blocks records,
    fs = concat blocks ++ records ∧
    length blocks = length (glob_list d input_path ".pdf") ∧
    length records =
      length (glob_list d input_path ".jpg" ++ glob_list d input_path ".jpeg" ++
              glob_list d input_path ".png" ++ glob_list d input_path ".bmp" ++
              glob_list d input_path ".gif") ∧
    Forall (λ b, ∃ folder st, combined_record_path folder st ∈ b) blocks ∧
    Forall (λ p, ∃ st ts, p = image_record_path output_dir st ts) records.
Proof.
  intros d Hdir Hrun.
  rewrite (process_input_path_dir E _ _ _ _ _ Hdir), process_directory_unfold in Hrun.
  cbn [disk] in Hrun. fold d in Hrun. rewrite image_scan_unfold in Hrun.
  unfold bind at 1 in Hrun.
  destruct (for_enumerate _ 0 (glob_list d input_path ".pdf") [] _)
    as [[acc|e] w1] eqn:Hpdfs; [|done].
  unfold bind at 1 in Hrun.
  destruct (for_enumerate _ 0 _ acc w1) as [[acc'|e] w2] eqn:Himgs; [|done].
  injection Hrun as <- <-.
  apply (collect_loop_ok (λ x, process_pdf E x output_dir self prompt) (λ b, b))
    in Hpdfs as (blocks & -> & Hblocks).
  apply (collect_loop_ok (λ x, process_image E x output_dir self prompt) (λ b, [b]))
    in Himgs as (records & -> & Hrecords).
  exists blocks, records. rewrite list_fmap_id, concat_singletons.
  split; [done|].
  split; [symmetry; by eapply Forall2_length|].
  split; [symmetry; by eapply Forall2_length|]. split.
  - clear Hrecords. induction Hblocks as [|pdf block pdfs blocks (w3 & w4 & Hone) _ IH];
      constructor; [|done].
    destruct (process_pdf_run E output_dir self prompt pdf w3 w4 _ Hone) as (_ & _ & Hok).
    destruct (Hok block eq_refl) as [[n ->] _].
    eexists _, _. apply elem_of_app. right. by left.
  - clear Hblocks. induction Hrecords as [|img record imgs records (w3 & w4 & Hone) _ IH];
      constructor; [|done].
    destruct (process_image_run E output_dir self prompt img w3 w4 _ Hone) as (_ & Hok).
    destruct (Hok record eq_refl) as (Hn & _). eauto.
Qed.

(** X19. When [main] returns after a directory run, its summary leaves no
    processed file out: the number of PDF description files it reports is
    at least the number of PDFs found, the two numbers together are at
    least the number of PDFs and images found, and together they never
    exceed the number of files the run returned. *)
Theorem main_summary_counts_every_file (registry : string → tags_outcome) (E : env)
    (args : Args) (w w' : world) (image_descriptions pdf_descriptions : nat) :
  let d := make_dirs (disk w) (arg_output_dir args) in
  let pdf_files := glob_list d (arg_input_path args) ".pdf" in
  let image_files :=
    glob_list d (arg_input_path args) ".jpg" ++
    glob_list d (arg_input_path args) ".jpeg" ++
    glob_list d (arg_input_path args) ".png" ++
    glob_list d (arg_input_path args) ".bmp" ++
    glob_list d (arg_input_path args) ".gif" in
  d !! arg_input_path args = Some Dir →
  main registry E args w = (Returned image_descriptions pdf_descriptions, w') →
  length pdf_files ≤ pdf_descriptions ∧
  length pdf_files + length image_files ≤ pdf_descriptions + image_descriptions ∧
  ∃ output_files ollama_client,
    process_input_path E (arg_input_path args) (arg_output_dir args) ollama_client
      (arg_prompt args) w = (Ok output_files, w') ∧
    pdf_descriptions + image_descriptions ≤ length output_files.
Proof.
  intros d pdf_files image_files Hdir Hmain. unfold main in Hmain.
  destruct (OllamaClient_init registry (arg_model args) (arg_api_url args))
    as [logs [ollama_client|e]]; [|done].
  destruct (process_input_path E (arg_input_path args) (arg_output_dir args)
              ollama_client (arg_prompt args) w) as [[fs|e] w1] eqn:Hrun; [|done].
  injection Hmain as <- <- <-.
  destruct (directory_run_counted E _ _ _ _ _ _ _ Hdir Hrun)
    as (blocks & records & Hfs & Hnb & Hnr & Hblocks & Hrecords).
  fold d in Hnb, Hnr. fold pdf_files in Hnb. fold image_files in Hnr.
  rewrite <- Hnb, <- Hnr.
  split; [|split].
  - unfold pdf_outputs. rewrite Hfs, filter_app, length_app.
    etransitivity; [|apply Nat.le_add_r].
    apply filter_concat_length.
    eapply Forall_impl; [exact Hblocks|].
    intros b (folder & st & Hin). eexists. split; [exact Hin|].
    apply combined_record_is_pdf_output.
  - rewrite summary_total.
    rewrite Hfs, filter_app, length_app. apply Nat.add_le_mono.
    + apply filter_concat_length.
      eapply Forall_impl; [exact Hblocks|].
      intros b (folder & st & Hin). eexists. split; [exact Hin|].
      left. apply combined_record_is_pdf_output.
    + rewrite filter_all_length; [done|].
      eapply Forall_impl; [exact Hrecords|].
      intros p (st & ts & ->). right. apply image_record_is_description.
  - exists fs, ollama_client. split; [done|].
    rewrite summary_total. apply length_filter.
Qed.

Section PathText.

Lemma is_prefix_app_r (sub s post : string) :
  Text.is_prefix sub s = true → Text.is_prefix sub (s +:+ post) = true.
Proof.
  revert s. induction sub as [|x sub IH]; intros [|y s]; try done.
  rewrite str_app_cons. cbn [Text.is_prefix].
  intros [-> Hs]%andb_true_iff. by rewrite IH.
Qed.

Lemma contains_app_r (sub s post : string) :
  Text.contains sub s = true → Text.contains sub (s +:+ post) = true.
Proof.
  induction s as [|y s IH].
  - cbn [Text.contains]. rewrite orb_false_r. intros Hp.
    destruct sub; [|done]. by destruct post.
  - rewrite str_app_cons. cbn [Text.contains].
    intros [Hp|Hs]%orb_true_iff; apply orb_true_iff.
    + left. by apply (is_prefix_app_r sub (String y s) post).
    + right. by apply IH.
Qed.

Lemma join_snoc_prefix (sep : string) (l : list string) (y : string) :
  l ≠ [] → Text.join sep (l ++ [y]) = Text.join sep l +:+ sep +:+ y.
Proof.
  induction l as [|x [|x' l] IH]; intros Hne; [done|done|].
  change (x +:+ sep +:+ Text.join sep ((x' :: l) ++ [y]) =
          (x +:+ sep +:+ Text.join sep (x' :: l)) +:+ sep +:+ y).
  rewrite IH by done. by rewrite !str_app_assoc.
Qed.

(** [str(p)]: a leading [/] component is the root. *)
Lemma path_str_cons (z : string) (q : path) :
  path_str (z :: q) =
    if decide (z = "/") then "/" +:+ Text.join "/" q else Text.join "/" (z :: q).
Proof.
  destruct (decide (z = "/")) as [->|Hne]; [reflexivity|].
  unfold path_str.
  repeat match goal with
         | |- context [match ?v with _ => _ end] => destruct v
         end; try reflexivity; by destruct Hne.
Qed.

(** The text of a path begins with the text of its parent. *)
Lemma path_str_parent (p : path) (y : string) :
  p ≠ [] → ∃ post, path_str (p ++ [y]) = path_str p +:+ post.
Proof.
  destruct p as [|z q]; [done|]. intros _.
  change ((z :: q) ++ [y]) with (z :: (q ++ [y])). rewrite !path_str_cons.
  destruct (decide (z = "/")) as [->|Hne].
  - destruct q as [|x q]; [by exists y|].
    exists ("/" +:+ y). rewrite join_snoc_prefix by done. by rewrite !str_app_assoc.
  - exists ("/" +:+ y). by apply (join_snoc_prefix "/" (z :: q) y).
Qed.

(** The folder of a PDF whose stem ends in [_description] puts the marker
    of image records into the path of each of its page records. *)
Lemma page_record_of_description_pdf (out : path) (st ts : string) (k : nat) :
  Text.contains "_description_"
    (path_str (page_record_path (pdf_folder out (st +:+ "_description") ts) k)) = true.
Proof.
  unfold page_record_path, pdf_folder, joinpath.
  destruct (path_str_parent (out ++ [(st +:+ "_description") +:+ "_" +:+ ts])
              ("page_" +:+ pretty k +:+ "_description.json")) as [post ->].
  { by destruct out. }
  apply contains_app_r.
  rewrite (str_app_assoc st "_description" ("_" +:+ ts)).
  apply (contains_in_name "_description_" out st ts).
Qed.

End PathText.

(** X20. The summary tells documents from images by the text of the record
    paths alone. When the input is a single PDF whose stem ends in
    [_description] and every page succeeds, each page record is counted as
    well: the two numbers of the summary add up to the number of pages
    plus one, although one document and no image was processed. *)
Theorem main_counts_pages_of_description_pdf (registry : string → tags_outcome)
    (E : env) (args : Args) (w : world) (logs : list log_event)
    (ollama_client : OllamaClient) (pages : list image) (ds : list string)
    (st : string) :
  OllamaClient_init registry (arg_model args) (arg_api_url args) =
    (logs, Constructed ollama_client) →
  disk w !! arg_input_path args = Some (File (Pdf pages)) →
  Str.lower (suffix (arg_input_path args)) = ".pdf" →
  stem (arg_input_path args) = st +:+ "_description" →
  page_replies E ollama_client (arg_prompt args) (requests_sent w) pages = Ok <$> ds →
  ∃ image_descriptions pdf_descriptions w',
    main registry E args w = (Returned image_descriptions pdf_descriptions, w') ∧
    image_descriptions + pdf_descriptions = length pages + 1.
Proof.
  intros Hinit Hpdf Hsuffix Hstem Hreplies. unfold main. rewrite Hinit.
  rewrite (process_input_path_pdf_file E _ _ _ _ _ _ Hpdf Hsuffix).
  set (wm := World (make_dirs (disk w) (arg_output_dir args)) (temp w)
                   (clock_reads w) (requests_sent w)).
  destruct (process_pdf_ok E (arg_input_path args) (arg_output_dir args)
              ollama_client (arg_prompt args) wm pages ds) as (w' & descs & Hrun & _).
  { by apply make_dirs_lookup_Some. }
  { exact Hreplies. }
  rewrite Hrun. eexists _, _, w'. split; [reflexivity|].
  rewrite Nat.add_comm, summary_total, filter_all_length.
  - by rewrite length_app, length_fmap, length_seq.
  - rewrite Hstem. apply Forall_app. split.
    + apply Forall_fmap, Forall_forall. intros k _. right.
      exact (page_record_of_description_pdf (arg_output_dir args) st
               (stamp E (clock_reads wm)) k).
    + apply Forall_singleton. left. apply combined_record_is_pdf_output.
Qed.

(** X21. When the model registry cannot be reached or answers with a status
    other than 200, [main] ends with the constructor's [ConnectionError],
    which no handler catches, before anything has been done: the output
    directory has not been created, no clock has been read and no request
    for a description has been sent. *)
Theorem main_registry_failure_precedes_all_work (registry : string → tags_outcome)
    (E : env) (args : Args) (w : world) :
  (∀ models, registry (arg_api_url args +:+ "/api/tags") ≠ TagsResponded 200 models) →
  ∃ msg, main registry E args w = (Propagated (ConnectionError msg), w).
Proof.
  intros Hfail. unfold main, OllamaClient_init, check_model_availability.
  cbn [api_url].
  destruct (registry (arg_api_url args +:+ "/api/tags")) as [reason|status models] eqn:Hreg.
  - eauto.
  - destruct (decide (status = 200%Z)) as [->|Hne]; [by destruct (Hfail models)|].
    rewrite bool_decide_true by done. eauto.
Qed.

(** X22. When the client has been constructed and the input path does not
    exist (and is not created along with the output directory), [main]
    catches the [FileNotFoundError] and exits with status 1; by then the
    output directory exists, and nothing else has changed: every other
    entry is as before or a new directory, no clock has been read and no
    request has been sent. *)
Theorem main_exits_with_1_on_missing_input (registry : string → tags_outcome)
    (E : env) (args : Args) (w : world) (logs : list log_event)
    (ollama_client : OllamaClient) :
  OllamaClient_init registry (arg_model args) (arg_api_url args) =
    (logs, Constructed ollama_client) →
  disk w !! arg_input_path args = None →
  arg_input_path args ∉ ancestors_and_self (arg_output_dir args) →
  arg_output_dir args ≠ [] →
  ∃ w',
    main registry E args w = (SysExit 1, w') ∧
    is_Some (disk w' !! arg_output_dir args) ∧
    (∀ p, disk w' !! p = disk w !! p ∨ (disk w !! p = None ∧ disk w' !! p = Some Dir)) ∧
    clock_reads w' = clock_reads w ∧
    requests_sent w' = requests_sent w.
Proof.
  intros Hinit Hnone Hnot Hout. unfold main. rewrite Hinit.
  rewrite (process_input_path_not_found E _ _ _ _ _ Hnone Hnot).
  eexists. split; [reflexivity|]. cbn [disk clock_reads requests_sent].
  split; [|split; [|done]].
  - rewrite make_dirs_lookup. destruct (disk w !! arg_output_dir args); [eauto|].
    rewrite decide_True; [eauto|].
    rewrite (app_removelast_last "" Hout). apply self_in_ancestors.
  - intros p. apply make_dirs_changes.
Qed.

(** * The further properties at concrete inputs *)

Lemma constructor_warns_when_model_missing_witness :
  SampleRun.two_models ("http://localhost:11434" +:+ "/api/tags") =
    TagsResponded 200 (Some (Some <$> ["granite3.2-vision:latest"; "llava:latest"])) ∧
  OllamaClient_init SampleRun.two_models "mistral" "http://localhost:11434" =
    ([LogWarning "Model 'mistral' not found in Ollama. Available models: granite3.2-vision:latest, llava:latest";
      LogWarning "You may need to run: ollama pull mistral"],
     Constructed (Client "mistral" "http://localhost:11434")).
Proof.
  assert (H1 : SampleRun.two_models ("http://localhost:11434" +:+ "/api/tags") =
               TagsResponded 200
                 (Some (Some <$> ["granite3.2-vision:latest"; "llava:latest"])))
    by reflexivity.
  split; [exact H1|].
  etransitivity;
    [exact (constructor_warns_when_model_missing SampleRun.two_models "mistral"
              "http://localhost:11434" ["granite3.2-vision:latest"; "llava:latest"] H1)|].
  vm_compute. reflexivity.
Defined.

Lemma constructor_type_error_on_nameless_entry_witness :
  (None ∈ [None; Some "llava:latest"]) ∧
  (Some "mistral" ∉ [None; Some "llava:latest"]) ∧
  OllamaClient_init SampleRun.nameless_entry "mistral" "http://localhost:11434" =
    ([], InitRaised TypeError).
Proof.
  assert (H1 : SampleRun.nameless_entry ("http://localhost:11434" +:+ "/api/tags") =
               TagsResponded 200 (Some [None; Some "llava:latest"])) by reflexivity.
  assert (H2 : None ∈ [None; Some "llava:latest"]) by (by left).
  assert (H3 : Some "mistral" ∉ [None; Some "llava:latest"])
    by (apply (bool_decide_eq_false_1 _); vm_compute; reflexivity).
  split; [exact H2|]. split; [exact H3|].
  exact (constructor_type_error_on_nameless_entry SampleRun.nameless_entry "mistral"
           "http://localhost:11434" [None; Some "llava:latest"] H1 H2 H3).
Defined.

Lemma generate_without_readable_image_witness :
  lookup_loc (OnDisk ["in"; "notes.txt"]) SampleRun.one_text_file =
    Some (File (Raw "plain text")) ∧
  generate Sample.same_second Sample.client Sample.prompt
    (OnDisk ["in"; "notes.txt"]) SampleRun.one_text_file =
    (Raise (ImageOpenError (OnDisk ["in"; "notes.txt"])), SampleRun.one_text_file).
Proof.
  assert (H1 : lookup_loc (OnDisk ["in"; "notes.txt"]) SampleRun.one_text_file =
               Some (File (Raw "plain text"))) by (vm_compute; reflexivity).
  split; [exact H1|].
  etransitivity;
    [apply (generate_without_readable_image Sample.same_second Sample.client
              Sample.prompt (OnDisk ["in"; "notes.txt"]) SampleRun.one_text_file);
     intros img; rewrite H1; discriminate|].
  by rewrite H1.
Defined.





Lemma process_pdf_stays_in_its_folder_witness :
  fst (process_pdf Sample.second_fails ["in"; "deck.pdf"] ["out"]
         Sample.client Sample.prompt Sample.one_pdf) =
    Raise (OllamaApiError (HTTPError 500)) ∧
  temp (snd (process_pdf Sample.second_fails ["in"; "deck.pdf"] ["out"]
               Sample.client Sample.prompt Sample.one_pdf)) = ∅.
Proof.
  assert (H1 : fst (process_pdf Sample.second_fails ["in"; "deck.pdf"] ["out"]
                      Sample.client Sample.prompt Sample.one_pdf) =
               Raise (OllamaApiError (HTTPError 500))) by (vm_compute; reflexivity).
  split; [exact H1|].
  exact (proj1 (process_pdf_stays_in_its_folder Sample.second_fails
                  ["in"; "deck.pdf"] ["out"] Sample.client Sample.prompt
                  Sample.one_pdf _ _ (run_eta _ _ H1))).
Defined.

Lemma process_pdf_unreadable_leaves_folder_witness :
  disk SampleRun.broken_pdf !! ["in"; "broken.pdf"] = Some (File (Raw "not a pdf")) ∧
  ∃ w',
    process_pdf Sample.same_second ["in"; "broken.pdf"] ["out"]
      Sample.client Sample.prompt SampleRun.broken_pdf =
      (Raise (PdfConversionError ["in"; "broken.pdf"]), w') ∧
    disk w' !! ["out"; "broken_20240615_123045"] = Some Dir.
Proof.
  assert (H1 : disk SampleRun.broken_pdf !! ["in"; "broken.pdf"] =
               Some (File (Raw "not a pdf"))) by (vm_compute; reflexivity).
  assert (H2 : disk SampleRun.broken_pdf !! ["out"; "broken_20240615_123045"] = None)
    by (vm_compute; reflexivity).
  split; [exact H1|].
  destruct (process_pdf_unreadable_leaves_folder Sample.same_second
              ["in"; "broken.pdf"] ["out"] Sample.client Sample.prompt
              SampleRun.broken_pdf) as (w' & Hrun & Hfolder & _).
  { intros pages. rewrite H1. discriminate. }
  exists w'. split; [exact Hrun | exact (Hfolder H2)].
Defined.

Lemma process_pdf_sends_one_request_per_page_witness :
  disk Sample.one_pdf !! ["in"; "deck.pdf"] =
    Some (File (Pdf [Sample.slide; Sample.slide; Sample.slide])) ∧
  fst (process_pdf Sample.second_fails ["in"; "deck.pdf"] ["out"]
         Sample.client Sample.prompt Sample.one_pdf) =
    Raise (OllamaApiError (HTTPError 500)) ∧
  ∃ k, 1 ≤ k ≤ 3 ∧
       requests_sent (snd (process_pdf Sample.second_fails ["in"; "deck.pdf"] ["out"]
                             Sample.client Sample.prompt Sample.one_pdf)) = 0 + k.
Proof.
  assert (H1 : disk Sample.one_pdf !! ["in"; "deck.pdf"] =
               Some (File (Pdf [Sample.slide; Sample.slide; Sample.slide])))
    by (vm_compute; reflexivity).
  assert (H2 : fst (process_pdf Sample.second_fails ["in"; "deck.pdf"] ["out"]
                      Sample.client Sample.prompt Sample.one_pdf) =
               Raise (OllamaApiError (HTTPError 500))) by (vm_compute; reflexivity).
  split; [exact H1|]. split; [exact H2|].
  destruct (process_pdf_sends_one_request_per_page Sample.second_fails
              ["in"; "deck.pdf"] ["out"] Sample.client Sample.prompt Sample.one_pdf
              _ _ _ H1 (run_eta _ _ H2)) as (k & Hk & Hsent & _).
  exists k. split; [exact Hk | exact Hsent].
Defined.

Lemma process_pdf_success_needs_every_page_witness :
  fst (process_pdf Sample.same_second ["in"; "deck.pdf"] ["out"]
         Sample.client Sample.prompt Sample.one_pdf) =
    Ok [["out"; "deck_20240615_123045"; "page_1_description.json"];
        ["out"; "deck_20240615_123045"; "page_2_description.json"];
        ["out"; "deck_20240615_123045"; "page_3_description.json"];
        ["out"; "deck_20240615_123045"; "deck_all_descriptions.json"]] ∧
  ∃ pages, disk Sample.one_pdf !! ["in"; "deck.pdf"] = Some (File (Pdf pages)) ∧
           4 = length pages + 1.
Proof.
  assert (H1 : fst (process_pdf Sample.same_second ["in"; "deck.pdf"] ["out"]
                      Sample.client Sample.prompt Sample.one_pdf) =
               Ok [["out"; "deck_20240615_123045"; "page_1_description.json"];
                   ["out"; "deck_20240615_123045"; "page_2_description.json"];
                   ["out"; "deck_20240615_123045"; "page_3_description.json"];
                   ["out"; "deck_20240615_123045"; "deck_all_descriptions.json"]])
    by (vm_compute; reflexivity).
  split; [exact H1|].
  destruct (process_pdf_success_needs_every_page Sample.same_second
              ["in"; "deck.pdf"] ["out"] Sample.client Sample.prompt Sample.one_pdf
              _ _ (run_eta _ _ H1)) as (pages & ds & Hpdf & _ & Hlen).
  exists pages. split; [exact Hpdf | exact Hlen].
Defined.

Lemma directory_run_collects_in_scan_order_witness :
  make_dirs (disk SampleRun.pdf_and_image) ["out"] !! ["in"] = Some Dir ∧
  fst (process_input_path Sample.same_second ["in"] ["out"]
         Sample.client Sample.prompt SampleRun.pdf_and_image) =
    Ok [["out"; "deck_20240615_123045"; "page_1_description.json"];
        ["out"; "deck_20240615_123045"; "page_2_description.json"];
        ["out"; "deck_20240615_123045"; "deck_all_descriptions.json"];
        ["out"; "x_description_20240615_123045.json"]] ∧
  ∃ blocks records,
    [["out"; "deck_20240615_123045"; "page_1_description.json"];
     ["out"; "deck_20240615_123045"; "page_2_description.json"];
     ["out"; "deck_20240615_123045"; "deck_all_descriptions.json"];
     ["out"; "x_description_20240615_123045.json"]] = concat blocks ++ records.
Proof.
  assert (H1 : make_dirs (disk SampleRun.pdf_and_image) ["out"] !! ["in"] = Some Dir)
    by (vm_compute; reflexivity).
  assert (H2 : fst (process_input_path Sample.same_second ["in"] ["out"]
                      Sample.client Sample.prompt SampleRun.pdf_and_image) =
               Ok [["out"; "deck_20240615_123045"; "page_1_description.json"];
                   ["out"; "deck_20240615_123045"; "page_2_description.json"];
                   ["out"; "deck_20240615_123045"; "deck_all_descriptions.json"];
                   ["out"; "x_description_20240615_123045.json"]])
    by (vm_compute; reflexivity).
  split; [exact H1|]. split; [exact H2|].
  destruct (directory_run_collects_in_scan_order Sample.same_second ["in"] ["out"]
              Sample.client Sample.prompt SampleRun.pdf_and_image _ _ H1
              (run_eta _ _ H2)) as (blocks & records & Hfs & _).
  exists blocks, records. exact Hfs.
Defined.


Lemma run_leaves_other_files_untouched_witness :
  disk SampleRun.pdf_and_image !! ["in"; "deck.pdf"] =
    Some (File (Pdf [Sample.slide; Sample.slide])) ∧
  disk (snd (process_input_path Sample.same_second ["in"] ["out"]
               Sample.client Sample.prompt SampleRun.pdf_and_image))
    !! ["in"; "deck.pdf"] = Some (File (Pdf [Sample.slide; Sample.slide])).
Proof.
  assert (H1 : disk SampleRun.pdf_and_image !! ["in"; "deck.pdf"] =
               Some (File (Pdf [Sample.slide; Sample.slide])))
    by (vm_compute; reflexivity).
  split; [exact H1|].
  refine (proj2 (run_leaves_other_files_untouched Sample.same_second ["in"] ["out"]
                   Sample.client Sample.prompt SampleRun.pdf_and_image _ _
                   (run_eta _ _ eq_refl) ["in"; "deck.pdf"] _ H1) _ _);
    vm_compute; reflexivity.
Defined.


Lemma directory_run_empty_iff_nothing_found_witness :
  make_dirs (disk SampleRun.one_text_file) ["out"] !! ["in"] = Some Dir ∧
  fst (process_input_path Sample.same_second ["in"] ["out"]
         Sample.client Sample.prompt SampleRun.one_text_file) = Ok [] ∧
  Str.ends_with ".png" (name ["in"; "notes.txt"]) = false.
Proof.
  assert (H1 : make_dirs (disk SampleRun.one_text_file) ["out"] !! ["in"] = Some Dir)
    by (vm_compute; reflexivity).
  assert (H2 : fst (process_input_path Sample.same_second ["in"] ["out"]
                      Sample.client Sample.prompt SampleRun.one_text_file) = Ok [])
    by (vm_compute; reflexivity).
  split; [exact H1|]. split; [exact H2|].
  refine (proj1 (proj1 (directory_run_empty_iff_nothing_found Sample.same_second
                          ["in"] ["out"] Sample.client Sample.prompt
                          SampleRun.one_text_file H1)) H2
            ["in"; "notes.txt"] ".png" _ _ _).
  - vm_compute. eauto.
  - vm_compute. reflexivity.
  - apply (bool_decide_eq_true_1 _). vm_compute. reflexivity.
Defined.

Lemma main_summary_counts_every_file_witness :
  make_dirs (disk SampleRun.pdf_and_image) ["out"] !! ["in"] = Some Dir ∧
  fst (main SampleRun.two_models Sample.same_second (SampleRun.args_for ["in"])
         SampleRun.pdf_and_image) = Returned 1 1 ∧
  length (glob_list (make_dirs (disk SampleRun.pdf_and_image) ["out"]) ["in"] ".pdf") ≤ 1.
Proof.
  assert (H1 : make_dirs (disk SampleRun.pdf_and_image) ["out"] !! ["in"] = Some Dir)
    by (vm_compute; reflexivity).
  assert (H2 : fst (main SampleRun.two_models Sample.same_second
                      (SampleRun.args_for ["in"]) SampleRun.pdf_and_image) =
               Returned 1 1) by (vm_compute; reflexivity).
  assert (H3 : main SampleRun.two_models Sample.same_second
                 (SampleRun.args_for ["in"]) SampleRun.pdf_and_image =
               (Returned 1 1,
                snd (main SampleRun.two_models Sample.same_second
                       (SampleRun.args_for ["in"]) SampleRun.pdf_and_image)))
    by (rewrite <- H2; apply surjective_pairing).
  split; [exact H1|]. split; [exact H2|].
  exact (proj1 (main_summary_counts_every_file SampleRun.two_models
                  Sample.same_second (SampleRun.args_for ["in"])
                  SampleRun.pdf_and_image _ 1 1 H1 H3)).
Defined.

Lemma main_counts_pages_of_description_pdf_witness :
  stem ["in"; "product_description.pdf"] = "product" +:+ "_description" ∧
  ∃ image_descriptions pdf_descriptions w',
    main SampleRun.two_models Sample.same_second
      (SampleRun.args_for ["in"; "product_description.pdf"])
      SampleRun.description_pdf =
      (Returned image_descriptions pdf_descriptions, w') ∧
    image_descriptions + pdf_descriptions = 2 + 1.
Proof.
  assert (H1 : stem ["in"; "product_description.pdf"] = "product" +:+ "_description")
    by (vm_compute; reflexivity).
  split; [exact H1|].
  refine (main_counts_pages_of_description_pdf SampleRun.two_models
            Sample.same_second (SampleRun.args_for ["in"; "product_description.pdf"])
            SampleRun.description_pdf []
            (Client "granite3.2-vision:latest" "http://localhost:11434")
            [Sample.slide; Sample.slide] ["text 0"; "text 1"] "product"
            _ _ _ H1 _); vm_compute; reflexivity.
Defined.

Lemma main_registry_failure_precedes_all_work_witness :
  ∃ msg,
    main SampleRun.unreachable Sample.same_second (SampleRun.args_for ["in"])
      Sample.one_image = (Propagated (ConnectionError msg), Sample.one_image).
Proof.
  apply (main_registry_failure_precedes_all_work SampleRun.unreachable
           Sample.same_second (SampleRun.args_for ["in"]) Sample.one_image).
  intros models. vm_compute. discriminate.
Defined.

Lemma main_exits_with_1_on_missing_input_witness :
  disk Sample.one_image !! ["missing"] = None ∧
  ∃ w',
    main SampleRun.two_models Sample.same_second (SampleRun.args_for ["missing"])
      Sample.one_image = (SysExit 1, w') ∧
    is_Some (disk w' !! ["out"]).
Proof.
  assert (H1 : disk Sample.one_image !! ["missing"] = None) by (vm_compute; reflexivity).
  split; [exact H1|].
  destruct (main_exits_with_1_on_missing_input SampleRun.two_models Sample.same_second
              (SampleRun.args_for ["missing"]) Sample.one_image []
              (Client "granite3.2-vision:latest" "http://localhost:11434"))
    as (w' & Hmain & Hout & _).
  - vm_compute. reflexivity.
  - exact H1.
  - apply (bool_decide_eq_false_1 _). vm_compute. reflexivity.
  - discriminate.
  - exists w'. split; [exact Hmain | exact Hout].
Defined.
